(** * Dividend history service: scrape, normalize, merge, persist, cache

    A shallow embedding of [StockAnalysisService] (the merge-aware
    service of app.module.ts) and the properties its specification
    states about it.

    Conventions of the embedding:
    - a JavaScript string is a [string], a sequence of code units, here
      the code units 0..255; [>] on strings is [String.compare];
    - [Date.now()] and timestamps are [Z] (milliseconds);
    - the in-process cache [Map<string, CacheEntry>] and the files are
      [gmap string _]; directories are implicit in the paths;
    - [Array.prototype.sort] is a stable insertion sort, [push] is an
      append to an accumulator, a [for] loop a recursion on the array;
    - code that can throw runs in an exception monad, code that also
      reads or writes the cache or the files in a state-and-exception
      monad over the two; [console.error] is not modelled;
    - what the host provides (collation, [Date] parsing, case mapping,
      [path.join], the HTTP client, the HTML selector engine, a disk
      that may reject a write) is a class the service is parametrized
      by.

    The first part is the model, module by module as the specification
    lists the components; the second part the lemmas about each module;
    the last part the properties claimed, C1 to C10. *)

From Stdlib Require Import String Ascii List ZArith Lia Bool DecimalString.
From Stdlib Require Import Sorting.Sorted Sorting.Permutation.
From stdpp Require Import gmap strings.
Import ListNotations.

Local Open Scope stdpp_scope.

(** ** JavaScript strings *)

Module Js.

Definition dquote : ascii := "034"%char.
Definition newline : ascii := "010"%char.
Definition comma : ascii := ","%char.

(** [WhiteSpace] and [LineTerminator] code units below 256, the ones
    [String.prototype.trim] strips and [\s] matches. *)
Definition isWhiteSpace (c : ascii) : bool :=
  match c with
  | "009" | "010" | "011" | "012" | "013" | " " | "160" => true
  | _ => false
  end%char.

(** Truthiness of a string value: [''] is the only falsy string. *)
Definition truthy (s : string) : bool :=
  match s with
  | EmptyString => false
  | String _ _ => true
  end.

Fixpoint trimStart (s : string) : string :=
  match s with
  | EmptyString => EmptyString
  | String c s' => if isWhiteSpace c then trimStart s' else s
  end.

Fixpoint trimEnd (s : string) : string :=
  match s with
  | EmptyString => EmptyString
  | String c s' =>
      match trimEnd s' with
      | EmptyString => if isWhiteSpace c then EmptyString else String c EmptyString
      | t => String c t
      end
  end.

(** [s.trim()] *)
Definition trim (s : string) : string := trimEnd (trimStart s).

(** [s.includes(c)] for a one-character needle. *)
Fixpoint includes (c : ascii) (s : string) : bool :=
  match s with
  | EmptyString => false
  | String c' s' => Ascii.eqb c' c || includes c s'
  end.

(** The [replace] call of [escapeCsv]: every double quote is doubled. *)
Fixpoint doubleQuotes (s : string) : string :=
  match s with
  | EmptyString => EmptyString
  | String c s' =>
      if Ascii.eqb c dquote then String dquote (String dquote (doubleQuotes s'))
      else String c (doubleQuotes s')
  end.

(** [s.split(sep)] for a one-character separator: never the empty array,
    [''.split(sep)] is [['']]. *)
Fixpoint split (sep : ascii) (s : string) : list string :=
  match s with
  | EmptyString => [EmptyString]
  | String c s' =>
      if Ascii.eqb c sep then EmptyString :: split sep s'
      else match split sep s' with
           | [] => [String c EmptyString]
           | piece :: pieces => String c piece :: pieces
           end
  end.

(** [parts.join(sep)] *)
Fixpoint join (sep : string) (parts : list string) : string :=
  match parts with
  | [] => EmptyString
  | [p] => p
  | p :: rest => p +:+ sep +:+ join sep rest
  end.

End Js.

(** ** Data model *)

Record DividendHistory := mkDividend {
  exDividendDate : string;
  cashAmount : string;
  recordDate : string;
  payDate : string
}.

(** ** Delimited-text codec *)

Module Csv.
Import Js.

(** The [escapeCsv] closure of [saveToCsv]. *)
Definition escapeCsv (value : string) : string :=
  if includes comma value || includes dquote value || includes newline value
  then String dquote (doubleQuotes value +:+ String dquote EmptyString)
  else value.

Definition header : string :=
  "Ex-Dividend Date,Cash Amount,Record Date,Pay Date" +:+ String newline EmptyString.

(** One element of [rows] in [saveToCsv]. *)
Definition csvRow (d : DividendHistory) : string :=
  join (String comma EmptyString)
    [escapeCsv (exDividendDate d); escapeCsv (cashAmount d);
     escapeCsv (recordDate d); escapeCsv (payDate d)].

(** [csvContent] of [saveToCsv]: the text handed to [writeFile]. *)
Definition csvContent (dividends : list DividendHistory) : string :=
  header +:+ join (String newline EmptyString) (map csvRow dividends).

(** The loop of [parseCsvLine], with its three mutable variables as
    accumulators. *)
Fixpoint parseCsvLoop (line : string) (values : list string)
    (current : string) (inQuotes : bool) : list string :=
  match line with
  | EmptyString =>
      if truthy current then values ++ [trim current] else values
  | String char rest =>
      if Ascii.eqb char dquote then
        parseCsvLoop rest values current (negb inQuotes)
      else if Ascii.eqb char comma && negb inQuotes then
        parseCsvLoop rest (values ++ [trim current]) EmptyString inQuotes
      else
        parseCsvLoop rest values (current +:+ String char EmptyString) inQuotes
  end.

Definition parseCsvLine (line : string) : list string :=
  parseCsvLoop line [] EmptyString false.

(** The body of the [for] loop of [readExistingCsv] on [lines[i]]. *)
Definition readLine (dividends : list DividendHistory) (rawLine : string)
  : list DividendHistory :=
  let line := trim rawLine in
  if negb (truthy line) then dividends
  else
    let values := parseCsvLine line in
    if (4 <=? length values)%nat then
      dividends ++ [mkDividend (nth 0 values EmptyString) (nth 1 values EmptyString)
                               (nth 2 values EmptyString) (nth 3 values EmptyString)]
    else dividends.

(** What [readExistingCsv] computes from the text [readFile] returned. *)
Definition readCsvContent (content : string) : list DividendHistory :=
  let lines := List.filter (fun line => truthy (trim line)) (split newline content) in
  if (length lines <? 2)%nat then []
  else fold_left readLine (tail lines) [].

(** *** What the codec preserves *)

(** A field that the decoder gives back as it was written: no double
    quote, no newline, no white space at either end. *)
Definition cleanField (f : string) : Prop :=
  includes dquote f = false /\ includes newline f = false /\ trim f = f.

(** What every decoded record looks like. *)
Definition cleanRecord (d : DividendHistory) : Prop :=
  cleanField (exDividendDate d) /\ cleanField (cashAmount d) /\
  cleanField (recordDate d) /\ cleanField (payDate d).

(** A record the codec preserves: four clean fields, the last one
    non-empty. *)
Definition preserved (d : DividendHistory) : Prop :=
  cleanField (exDividendDate d) /\ cleanField (cashAmount d) /\
  cleanField (recordDate d) /\ cleanField (payDate d) /\
  payDate d <> EmptyString.

(** A field written verbatim by the encoder. *)
Definition plainField (f : string) : Prop :=
  includes comma f = false /\ includes dquote f = false /\ includes newline f = false.

(** A line the decoder keeps when it filters the lines of the file. *)
Definition nonblank (line : string) : bool := truthy (trim line).

(** The pieces of a line without its last piece when that one is empty. *)
Definition dropEmptyLast (pieces : list string) : list string :=
  if truthy (List.last pieces EmptyString) then pieces else List.removelast pieces.

End Csv.

(** ** Merge engine *)

Module Merge.

(** [String.prototype.localeCompare] with the default collator: negative,
    zero or positive.  The collation order depends on the host locale;
    what the code relies on is that it is a consistent comparator in the
    sense [Array.prototype.sort] requires. *)
Class Collator := {
  localeCompare : string -> string -> Z;
  localeCompare_antisym :
    forall a b, (0 < localeCompare a b)%Z <-> (localeCompare b a < 0)%Z;
  localeCompare_trans :
    forall a b c, (localeCompare a b <= 0)%Z -> (localeCompare b c <= 0)%Z ->
                  (localeCompare a c <= 0)%Z
}.

(** [a > b] on strings: lexicographic on code units. *)
Definition gtb (a b : string) : bool :=
  match String.compare a b with
  | Gt => true
  | _ => false
  end.

Section ArraySort.
Context {A : Type} (comparefn : A -> A -> Z).

(** [x] goes in front of the first element it does not compare
    greater than, hence in front of its equals. *)
Fixpoint insertSorted (x : A) (sorted : list A) : list A :=
  match sorted with
  | [] => [x]
  | y :: rest =>
      if (comparefn x y <=? 0)%Z then x :: sorted
      else y :: insertSorted x rest
  end.

(** [array.sort(comparefn)]: the sort is stable, so for a consistent
    comparator its result is the one of a stable insertion sort. *)
Definition arraySort (array : list A) : list A :=
  fold_right insertSorted [] array.

(** [x] may stay in front of [y]. *)
Definition inOrder (x y : A) : Prop := (comparefn x y <= 0)%Z.

(** The elements that compare equal to [k]. *)
Definition tiesOf (k : A) (l : list A) : list A :=
  List.filter (fun y => (comparefn k y =? 0)%Z) l.
End ArraySort.

(** The comparator [(a, b) => b.exDividendDate.localeCompare(a.exDividendDate)]. *)
Definition byDateDesc {collator : Collator} (a b : DividendHistory) : Z :=
  localeCompare (exDividendDate b) (exDividendDate a).

Definition mergeDividends {collator : Collator} (existing newData : list DividendHistory)
  : list DividendHistory :=
  match existing with
  | [] => arraySort byDateDesc newData
  | first :: _ =>
      let latestExistingDate := exDividendDate first in
      let newerEntries :=
        List.filter (fun d => gtb (exDividendDate d) latestExistingDate) newData in
      let merged := newerEntries ++ existing in
      arraySort byDateDesc merged
  end.

(** *** Orders on histories *)

(** Newest first under the collation: no record is followed by one
    whose date compares greater. *)
Definition descending {collator : Collator} (history : list DividendHistory) : Prop :=
  Sorted (fun a b =>
            (localeCompare (exDividendDate b) (exDividendDate a) <= 0)%Z) history.

(** The records whose date compares equal to the date of [k]. *)
Definition withDateOf {collator : Collator} (k : DividendHistory) (l : list DividendHistory)
  : list DividendHistory :=
  List.filter
    (fun d => (localeCompare (exDividendDate d) (exDividendDate k) =? 0)%Z) l.

(** [output] is [input] sorted descending by [exDividendDate]: the
    same records, newest first, records of equal date in their
    order in [input]. *)
Definition sortedDescendingOf {collator : Collator} (input output : list DividendHistory) : Prop :=
  Permutation input output /\
  descending output /\
  forall k, withDateOf k output = withDateOf k input.

(** What the merge admits from the harvest. *)
Definition newerEntries (existing harvested : list DividendHistory)
  : list DividendHistory :=
  match existing with
  | [] => harvested
  | first :: _ =>
      List.filter (fun d => gtb (exDividendDate d) (exDividendDate first)) harvested
  end.

(** Newest first in code-unit order, the order of the cutoff test,
    and strictly so. *)
Definition strictlyDescending (history : list DividendHistory) : Prop :=
  Sorted (fun a b => gtb (exDividendDate a) (exDividendDate b) = true) history.

End Merge.

(** ** Exceptions *)

(** What the service can throw or catch: the two NestJS exceptions it
    raises itself, and any other error value, of which the code reads
    [err?.response?.status] and [err?.message] (an absent message is the
    empty string, equally falsy). *)
Inductive JsError :=
| BadRequestException (message : string)
| InternalServerErrorException (message : string)
| OtherError (status : option Z) (message : string).

Definition errorMessage (e : JsError) : string :=
  match e with
  | BadRequestException m | InternalServerErrorException m | OtherError _ m => m
  end.

(** [value || fallback] on strings. *)
Definition orElse (value fallback : string) : string :=
  if Js.truthy value then value else fallback.

Inductive Completion (A : Type) :=
| Normal (value : A)
| Throw (error : JsError).
Arguments Normal {A} value.
Arguments Throw {A} error.

#[global] Instance Completion_ret : MRet Completion := fun A x => Normal x.
#[global] Instance Completion_bind : MBind Completion := fun A B f m =>
  match m with
  | Normal x => f x
  | Throw e => Throw e
  end.

(** [try { body } catch (e) { handler(e) }] *)
Definition tryCatch {A : Type} (body : Completion A) (handler : JsError -> Completion A)
  : Completion A :=
  match body with
  | Normal x => Normal x
  | Throw e => handler e
  end.

(** ** Record normalizer *)

Module Normalizer.
Import Js.

(** A [Date] object as the code observes it: [isNaN(date.getTime())], or
    the local-time [getFullYear()], [getMonth()] (0-11) and [getDate()]. *)
Inductive DateValue :=
| InvalidDate
| ValidDate (fullYear month date : Z).

(** [new Date(text)]: the parse of anything but the ISO format is left to
    the host. *)
Class DateHost := { newDate : string -> Completion DateValue }.

(** [String(n)] for an integer. *)
Definition numberToString (n : Z) : string :=
  DecimalString.NilZero.string_of_int (Z.to_int n).

Fixpoint repeatChar (n : nat) (c : ascii) : string :=
  match n with
  | O => EmptyString
  | S n' => String c (repeatChar n' c)
  end.

(** [s.padStart(targetLength, c)] for a one-character filler. *)
Definition padStart (targetLength : nat) (c : ascii) (s : string) : string :=
  repeatChar (targetLength - String.length s) c +:+ s.

Definition formatDateToIso {dateHost : DateHost} (dateStr : string) : Completion string :=
  if negb (truthy dateStr) || negb (truthy (trim dateStr)) then Normal dateStr
  else
    tryCatch
      (date ← newDate (trim dateStr);
       match date with
       | InvalidDate => Normal dateStr
       | ValidDate fullYear monthIndex dayOfMonth =>
           let year := numberToString fullYear in
           let month := padStart 2 "0" (numberToString (monthIndex + 1)) in
           let day := padStart 2 "0" (numberToString dayOfMonth) in
           Normal (year +:+ "-" +:+ month +:+ "-" +:+ day)
       end)
      (fun error => Normal dateStr).

(** *** The canonical form *)

(** The zero-padded form, digit by digit. *)
Definition decimalDigit (n : Z) : ascii := ascii_of_nat (48 + Z.to_nat (n mod 10)).

Definition fourDigits (n : Z) : string :=
  String (decimalDigit (n / 1000)) (String (decimalDigit (n / 100))
    (String (decimalDigit (n / 10)) (String (decimalDigit n) EmptyString))).

Definition twoDigits (n : Z) : string :=
  String (decimalDigit (n / 10)) (String (decimalDigit n) EmptyString).

(** [YYYY-MM-DD] of a year, a month 1-12 and a day of the month. *)
Definition isoDate (year month day : Z) : string :=
  fourDigits year +:+ "-" +:+ twoDigits month +:+ "-" +:+ twoDigits day.

End Normalizer.

(** ** Time-bounded cache *)

Record CacheEntry := mkCacheEntry {
  expiresAtMs : Z;
  data : list DividendHistory
}.

Module Cache.

Definition defaultTtlMs : Z := 60 * 60 * 1000.

(** [cached && cached.expiresAtMs > now ? cached.data : miss] *)
Definition get (cache : gmap string CacheEntry) (key : string) (now : Z)
  : option (list DividendHistory) :=
  match cache !! key with
  | Some cached => if (expiresAtMs cached >? now)%Z then Some (data cached) else None
  | None => None
  end.

(** [cache.set(key, { expiresAtMs: now + ttl, data })] *)
Definition put (cache : gmap string CacheEntry) (key : string)
    (value : list DividendHistory) (ttl now : Z) : gmap string CacheEntry :=
  <[key := mkCacheEntry (now + ttl) value]> cache.

End Cache.

(** ** Pattern tests of the fallback extraction *)

Module Regex.

Inductive re :=
| Void
| Eps
| Chr (accepts : ascii -> bool)
| Seq (r s : re)
| Alt (r s : re)
| Star (r : re).

Fixpoint nullable (r : re) : bool :=
  match r with
  | Void | Chr _ => false
  | Eps | Star _ => true
  | Seq r s => nullable r && nullable s
  | Alt r s => nullable r || nullable s
  end.

Fixpoint deriv (c : ascii) (r : re) : re :=
  match r with
  | Void | Eps => Void
  | Chr accepts => if accepts c then Eps else Void
  | Seq r s => if nullable r then Alt (Seq (deriv c r) s) (deriv c s) else Seq (deriv c r) s
  | Alt r s => Alt (deriv c r) (deriv c s)
  | Star r => Seq (deriv c r) (Star r)
  end.

(** Some prefix of [s] matches [r]. *)
Fixpoint matchesPrefix (r : re) (s : string) : bool :=
  nullable r ||
  match s with
  | EmptyString => false
  | String c s' => matchesPrefix (deriv c r) s'
  end.

(** [regex.test(s)] for a pattern without anchors: a match starts at
    some position of [s]. *)
Fixpoint test (r : re) (s : string) : bool :=
  matchesPrefix r s ||
  match s with
  | EmptyString => false
  | String _ s' => test r s'
  end.

Definition plus (r : re) : re := Seq r (Star r).
Definition opt (r : re) : re := Alt r Eps.

Definition between (lo hi : ascii) (c : ascii) : bool :=
  (N_of_ascii lo <=? N_of_ascii c)%N && (N_of_ascii c <=? N_of_ascii hi)%N.
Definition letter : re := Chr (fun c => between "A" "Z" c || between "a" "z" c).
Definition digit : re := Chr (between "0" "9").
Definition space : re := Chr Js.isWhiteSpace.
Definition lit (c : ascii) : re := Chr (Ascii.eqb c).

(** [/[A-Za-z]{3}\s+\d{1,2},\s+\d{4}/] *)
Definition datePattern : re :=
  Seq letter (Seq letter (Seq letter (Seq (plus space)
    (Seq digit (Seq (opt digit) (Seq (lit ",") (Seq (plus space)
      (Seq digit (Seq digit (Seq digit digit)))))))))).

(** [/\$?\d+\.\d+/] *)
Definition amountPattern : re :=
  Seq (opt (lit "$")) (Seq (plus digit) (Seq (lit ".") (plus digit))).

End Regex.

(** ** The service: persisted history store, harvester, orchestrator *)

Module Service.
Import Js Csv Merge Normalizer.

(** The outcome of [axios.get]: a response body, or a rejection with
    the status of [err.response] when there is one and [err.message]. *)
Inductive FetchResult (Html : Type) :=
| Response (body : Html)
| Rejected (status : option Z) (message : string).
Arguments Response {Html} body.
Arguments Rejected {Html} status message.

(** The host of the service.  [primaryRows doc] are the rows
    [tbody tr] of the tables the table-wrap selector finds in
    [cheerio.load(doc)], [fallbackRows doc] the rows [table tbody tr],
    each row as the texts of its [td] cells.  [diskRejects path] tells
    whether [mkdir] or [writeFile] is rejected at [path]. *)
Class Runtime := {
  Html : Type;
  toUpperCase : string -> string;
  toLowerCase : string -> string;
  cwd : string;
  pathJoin : list string -> string;
  httpGet : Z -> string -> FetchResult Html;
  primaryRows : Html -> list (list string);
  fallbackRows : Html -> list (list string);
  diskRejects : string -> bool
}.

(** The mutable state: the service's cache and the files. *)
Record World := mkWorld {
  cache : gmap string CacheEntry;
  files : gmap string string
}.

(** Computations that read and write the world and may throw. *)
Definition M (A : Type) : Type := World -> Completion A * World.

#[global] Instance M_ret : MRet M := fun A x w => (Normal x, w).
#[global] Instance M_bind : MBind M := fun A B f m w =>
  match m w with
  | (Normal x, w') => f x w'
  | (Throw e, w') => (Throw e, w')
  end.

Definition throw {A : Type} (e : JsError) : M A := fun w => (Throw e, w).

Definition tryCatchM {A : Type} (body : M A) (handler : JsError -> M A) : M A :=
  fun w =>
    match body w with
    | (Normal x, w') => (Normal x, w')
    | (Throw e, w') => handler e w'
    end.

Definition lift {A : Type} (c : Completion A) : M A := fun w => (c, w).
Definition getWorld : M World := fun w => (Normal w, w).
Definition setCache (c : gmap string CacheEntry) : M unit :=
  fun w => (Normal tt, mkWorld c (files w)).

(** [outputDir ? ... : ...] on an optional string. *)
Definition given (outputDir : option string) : bool :=
  match outputDir with
  | Some dir => truthy dir
  | None => false
  end.

Record BatchOutcome := mkOutcome {
  ticker : string;
  success : bool;
  error : option string
}.

(** A ticker as the manifest reader returns it. *)
Definition wellFormedTicker (t : string) : Prop :=
  t <> EmptyString /\ trim t = t /\
  includes comma t = false /\ includes newline t = false.

(** A harvested record as both extraction strategies keep it. *)
Definition kept (d : DividendHistory) : Prop :=
  exDividendDate d <> EmptyString /\ cashAmount d <> EmptyString /\
  trim (cashAmount d) = cashAmount d.

Section WithHost.
Context {collator : Collator} {dateHost : DateHost} {runtime : Runtime}.

(** *** File system *)

Definition access (path : string) : M unit := fun w =>
  match files w !! path with
  | Some _ => (Normal tt, w)
  | None => (Throw (OtherError None "ENOENT: no such file or directory"), w)
  end.

Definition readFile (path : string) : M string := fun w =>
  match files w !! path with
  | Some content => (Normal content, w)
  | None => (Throw (OtherError None "ENOENT: no such file or directory"), w)
  end.

Definition mkdir (dir : string) : M unit := fun w =>
  if diskRejects dir then (Throw (OtherError None "EACCES: permission denied"), w)
  else (Normal tt, w).

Definition writeFile (path content : string) : M unit := fun w =>
  if diskRejects path then (Throw (OtherError None "EACCES: permission denied"), w)
  else (Normal tt, mkWorld (cache w) (<[path := content]> (files w))).

Definition baseDir (outputDir : option string) : string :=
  match outputDir with
  | Some dir => if truthy dir then pathJoin [cwd; dir] else pathJoin [cwd; "src"; "data"]
  | None => pathJoin [cwd; "src"; "data"]
  end.

Definition csvPath (ticker : string) (outputDir : option string) : string :=
  pathJoin [baseDir outputDir; toLowerCase ticker +:+ "_dividends.csv"].

(** *** Persisted history store *)

Definition csvExists (ticker : string) (outputDir : option string) : M bool :=
  tryCatchM
    (access (csvPath ticker outputDir);; mret true)
    (fun _ => mret false).

Definition readExistingCsv (ticker : string) (outputDir : option string)
  : M (list DividendHistory) :=
  tryCatchM
    (content ← readFile (csvPath ticker outputDir);
     mret (readCsvContent content))
    (fun _ => mret []).

(** The [catch] only logs to the console. *)
Definition saveToCsv (ticker : string) (dividends : list DividendHistory)
    (outputDir : option string) : M unit :=
  tryCatchM
    (mkdir (baseDir outputDir);;
     writeFile (csvPath ticker outputDir) (csvContent dividends))
    (fun _ => mret tt).

(** *** History harvester *)

Definition normalizedRecord (exDividendDate cashAmount recordDate payDate : string)
  : Completion DividendHistory :=
  ex ← formatDateToIso exDividendDate;
  rec ← formatDateToIso recordDate;
  pay ← formatDateToIso payDate;
  mret (mkDividend ex cashAmount rec pay).

(** The row callback of the primary strategy. *)
Definition primaryRow (dividends : list DividendHistory) (cells : list string)
  : Completion (list DividendHistory) :=
  if (4 <=? length cells)%nat then
    let exDividendDate := trim (nth 0 cells EmptyString) in
    let cashAmount := trim (nth 1 cells EmptyString) in
    let recordDate := trim (nth 2 cells EmptyString) in
    let payDate := trim (nth 3 cells EmptyString) in
    if truthy exDividendDate && truthy cashAmount then
      d ← normalizedRecord exDividendDate cashAmount recordDate payDate;
      mret (dividends ++ [d])
    else mret dividends
  else mret dividends.

(** The row callback of the fallback strategy. *)
Definition fallbackRow (dividends : list DividendHistory) (cells : list string)
  : Completion (list DividendHistory) :=
  if (4 <=? length cells)%nat then
    let exDividendDate := trim (nth 0 cells EmptyString) in
    let cashAmount := trim (nth 1 cells EmptyString) in
    let recordDate := trim (nth 2 cells EmptyString) in
    let payDate := trim (nth 3 cells EmptyString) in
    let hasDate := Regex.test Regex.datePattern exDividendDate in
    let hasAmount := Regex.test Regex.amountPattern cashAmount in
    if hasDate && hasAmount then
      d ← normalizedRecord exDividendDate cashAmount recordDate payDate;
      mret (dividends ++ [d])
    else mret dividends
  else mret dividends.

(** [rows.each(callback)], the callback pushing onto [dividends]. *)
Fixpoint eachRow
    (callback : list DividendHistory -> list string -> Completion (list DividendHistory))
    (rows : list (list string)) (dividends : list DividendHistory)
  : Completion (list DividendHistory) :=
  match rows with
  | [] => mret dividends
  | cells :: rest =>
      dividends' ← callback dividends cells;
      eachRow callback rest dividends'
  end.

(** Both strategies, the second only when the first found nothing. *)
Definition extract (doc : Html) : Completion (list DividendHistory) :=
  dividends ← eachRow primaryRow (primaryRows doc) [];
  if (length dividends =? 0)%nat
  then eachRow fallbackRow (fallbackRows doc) dividends
  else mret dividends.

Definition axiosGet (now : Z) (url : string) : M Html := fun w =>
  match httpGet now url with
  | Response body => (Normal body, w)
  | Rejected status message => (Throw (OtherError status message), w)
  end.

Definition notFoundMessage (ticker : string) : string :=
  "ETF ticker " +:+ String dquote ticker +:+ String dquote " not found on stockanalysis.com".

(** [now] is the value [Date.now()] returns at the call. *)
Definition getDividendHistory (now : Z) (ticker : string) (outputDir : option string)
  : M (list DividendHistory) :=
  if negb (truthy ticker) then throw (BadRequestException "ticker is required")
  else
    let tickerUpper := toUpperCase ticker in
    w ← getWorld;
    match Cache.get (cache w) tickerUpper now with
    | Some cachedData =>
        (if given outputDir then saveToCsv tickerUpper cachedData outputDir
         else mret tt);;
        mret cachedData
    | None =>
        tryCatchM
          (let url := "https://stockanalysis.com/etf/" +:+ toLowerCase ticker
                      +:+ "/dividend/" in
           response ← axiosGet now url;
           dividends ← lift (extract response);
           if (length dividends =? 0)%nat then
             throw (InternalServerErrorException
                      "Could not find dividend history table on the page")
           else
             csvFileExists ← csvExists tickerUpper outputDir;
             finalDividends ←
               (if csvFileExists : bool then
                  existingData ← readExistingCsv tickerUpper outputDir;
                  mret (mergeDividends existingData dividends)
                else mret (arraySort byDateDesc dividends));
             saveToCsv tickerUpper finalDividends outputDir;;
             w' ← getWorld;
             setCache (Cache.put (cache w') tickerUpper finalDividends
                         Cache.defaultTtlMs now);;
             mret finalDividends)
          (fun err =>
             match err with
             | BadRequestException _ | InternalServerErrorException _ => throw err
             | OtherError status message =>
                 if decide (status = Some 404%Z) then
                   throw (BadRequestException (notFoundMessage ticker))
                 else
                   throw (InternalServerErrorException
                            (orElse message
                               "Failed to fetch dividend history from stockanalysis.com"))
             end)
    end.

(** The records each strategy finds in a document. *)
Definition primaryRecords (doc : Html) : Completion (list DividendHistory) :=
  eachRow primaryRow (primaryRows doc) [].
Definition fallbackRecords (doc : Html) : Completion (list DividendHistory) :=
  eachRow fallbackRow (fallbackRows doc) [].

(** The files after [saveToCsv]: one path rewritten, unless the disk
    rejects the directory or the file. *)
Definition filesAfterSave (ticker : string) (dividends : list DividendHistory)
    (outputDir : option string) (files : gmap string string) : gmap string string :=
  if diskRejects (baseDir outputDir) || diskRejects (csvPath ticker outputDir)
  then files
  else <[csvPath ticker outputDir := csvContent dividends]> files.

(** The address of a ticker's page. *)
Definition harvestUrl (ticker : string) : string :=
  "https://stockanalysis.com/etf/" +:+ toLowerCase ticker +:+ "/dividend/".

(** What is stored and returned once records were extracted. *)
Definition finalDividends (ticker : string) (outputDir : option string)
    (dividends : list DividendHistory) (w : World) : list DividendHistory :=
  match files w !! csvPath (toUpperCase ticker) outputDir with
  | Some content => mergeDividends (readCsvContent content) dividends
  | None => arraySort byDateDesc dividends
  end.

(** *** Batch orchestrator *)

(** The body of the [for] loop of [readTickersFromCsv]. *)
Definition readTickerLine (tickers : list string) (rawLine : string) : list string :=
  let line := trim rawLine in
  if negb (truthy line) then tickers
  else
    let columns := split comma line in
    let ticker := trim (nth 0 columns EmptyString) in
    if truthy ticker && (0 <? String.length ticker)%nat then tickers ++ [ticker]
    else tickers.

Definition readTickersFromCsv (csvFilePath : string) : M (list string) :=
  tryCatchM
    (content ← readFile (pathJoin [cwd; csvFilePath]);
     let lines := List.filter (fun line => truthy (trim line)) (split newline content) in
     if (length lines <? 2)%nat then
       throw (BadRequestException
                "CSV file must have at least a header and one data row")
     else mret (fold_left readTickerLine (tail lines) []))
    (fun error =>
       match error with
       | BadRequestException _ => throw error
       | _ => throw (BadRequestException
                       ("Failed to read CSV file: "
                          +:+ orElse (errorMessage error) "Unknown error"))
       end).

(** The [for (const ticker of tickers)] loop; [clock k] is the value
    of [Date.now()] in the pipeline call of iteration [k]. *)
Fixpoint processLoop (clock : nat -> Z) (k : nat) (outputDir : string)
    (tickers : list string) (results : list BatchOutcome) : M (list BatchOutcome) :=
  match tickers with
  | [] => mret results
  | ticker :: rest =>
      results' ←
        tryCatchM
          (getDividendHistory (clock k) ticker (Some outputDir);;
           mret (results ++ [mkOutcome ticker true None]))
          (fun error =>
             let errorMsg := orElse (errorMessage error) "Unknown error" in
             mret (results ++ [mkOutcome ticker false (Some errorMsg)]));
      processLoop clock (S k) outputDir rest results'
  end.

Definition processTickersFromCsv (clock : nat -> Z) (csvFilePath outputDir : string)
  : M (list BatchOutcome) :=
  tickers ← readTickersFromCsv csvFilePath;
  processLoop clock 0 outputDir tickers [].

(** The outcome recorded for a ticker whose pipeline call completed
    with [r]. *)
Definition outcomeOf (t : string) (r : Completion (list DividendHistory))
  : BatchOutcome :=
  match r with
  | Normal _ => mkOutcome t true None
  | Throw e => mkOutcome t false (Some (orElse (errorMessage e) "Unknown error"))
  end.

(** The world after the pipeline ran on each of [tickers] in turn,
    the first of them in iteration [k]. *)
Fixpoint worldAfter (clock : nat -> Z) (k : nat) (outputDir : string)
    (tickers : list string) (w : World) : World :=
  match tickers with
  | [] => w
  | t :: rest =>
      worldAfter clock (S k) outputDir rest
        (getDividendHistory (clock k) t (Some outputDir) w).2
  end.

(** The outcomes the loop collects for [tickers]. *)
Fixpoint batchOutcomes (clock : nat -> Z) (k : nat) (outputDir : string)
    (tickers : list string) (w : World) : list BatchOutcome :=
  match tickers with
  | [] => []
  | t :: rest =>
      let run := getDividendHistory (clock k) t (Some outputDir) w in
      outcomeOf t run.1 :: batchOutcomes clock (S k) outputDir rest run.2
  end.

End WithHost.

End Service.

(** ** The service without the merge *)

(** [StockAnalysisService] of stock-analysis.service.ts: the same
    normalizer, extraction, [saveToCsv] and batch code, and a pipeline
    that neither reads the existing file nor sorts. *)

Module Legacy.
Import Js Csv Merge Normalizer Service.

Section WithHost.
Context {dateHost : DateHost} {runtime : Runtime}.

Definition getDividendHistory (now : Z) (ticker : string) (outputDir : option string)
  : M (list DividendHistory) :=
  if negb (truthy ticker) then throw (BadRequestException "ticker is required")
  else
    let tickerUpper := toUpperCase ticker in
    w ← getWorld;
    match Cache.get (cache w) tickerUpper now with
    | Some cachedData =>
        (if given outputDir then saveToCsv tickerUpper cachedData outputDir
         else mret tt);;
        mret cachedData
    | None =>
        tryCatchM
          (let url := "https://stockanalysis.com/etf/" +:+ toLowerCase ticker
                      +:+ "/dividend/" in
           response ← axiosGet now url;
           dividends ← lift (extract response);
           if (length dividends =? 0)%nat then
             throw (InternalServerErrorException
                      "Could not find dividend history table on the page")
           else
             saveToCsv tickerUpper dividends outputDir;;
             w' ← getWorld;
             setCache (Cache.put (cache w') tickerUpper dividends
                         Cache.defaultTtlMs now);;
             mret dividends)
          (fun err =>
             match err with
             | BadRequestException _ | InternalServerErrorException _ => throw err
             | OtherError status message =>
                 if decide (status = Some 404%Z) then
                   throw (BadRequestException (notFoundMessage ticker))
                 else
                   throw (InternalServerErrorException
                            (orElse message
                               "Failed to fetch dividend history from stockanalysis.com"))
             end)
    end.

End WithHost.

End Legacy.

(** ** The calendar lookup *)

(** [DividendsService]: a cached pass-through to the dividends calendar
    of an external API. *)

Module Finnhub.
Import Js Normalizer.

(** The local-time fields of a [Date]: [getFullYear()], [getMonth()]
    (0-11), [getDate()]. *)
Record DateFields := mkDate {
  fullYear : Z;
  monthIndex : Z;
  dayOfMonth : Z
}.

(** The outcome of [axios.get]: the response data, or a rejection with
    [err.response.data] when there is one and [err.message]. *)
Inductive Reply (Json : Type) :=
| Fulfilled (data : Json)
| Failed (responseData : option Json) (message : string).
Arguments Fulfilled {Json} data.
Arguments Failed {Json} responseData message.

(** The query of a request. *)
Record Params := mkParams {
  token : string;
  symbol : string;
  from : string;
  to : string
}.

(** The host: the JSON values and their truthiness, the environment
    variable [FINNHUB_API_KEY], [Date.prototype.setFullYear] on the
    fields of a date, and the API as it answers at a given time. *)
Class Host := {
  Json : Type;
  jsonTruthy : Json -> bool;
  apiKey : option string;
  setFullYear : DateFields -> Z -> DateFields;
  calendarGet : Z -> Params -> Reply Json
}.

(** What the service throws: [BadRequestException] with a message, or
    [InternalServerErrorException] with response data or a message. *)
Inductive Failure (Json : Type) :=
| BadRequest (message : string)
| InternalServerError (response : Json + string).
Arguments BadRequest {Json} message.
Arguments InternalServerError {Json} response.

Record Entry (Json : Type) := mkEntry {
  expiresAt : Z;
  payload : Json
}.
Arguments mkEntry {Json} expiresAt payload.
Arguments expiresAt {Json} e.
Arguments payload {Json} e.

Definition defaultTtlMs : Z := 10 * 60 * 1000.

(** [value || fallback] on an optional string. *)
Definition orString (value : option string) (fallback : string) : string :=
  match value with
  | Some v => if truthy v then v else fallback
  | None => fallback
  end.

Definition formatDate (d : DateFields) : string :=
  let y := numberToString (fullYear d) in
  let m := padStart 2 "0" (numberToString (monthIndex d + 1)) in
  let day := padStart 2 "0" (numberToString (dayOfMonth d)) in
  y +:+ "-" +:+ m +:+ "-" +:+ day.

(** The key of the cache. *)
Definition cacheKey (ticker fromDate toDate : string) : string :=
  ticker +:+ "|" +:+ fromDate +:+ "|" +:+ toDate.

Section WithHost.
Context {host : Host}.

(** [err?.response?.data || err?.message || 'Failed to fetch dividends'] *)
Definition failureOf (responseData : option Json) (message : string) : Json + string :=
  match responseData with
  | Some body =>
      if jsonTruthy body then inl body
      else inr (orElse message "Failed to fetch dividends")
  | None => inr (orElse message "Failed to fetch dividends")
  end.

(** [cached && cached.expiresAtMs > now ? cached.data : miss] *)
Definition lookup (cache : gmap string (Entry Json)) (key : string) (now : Z)
  : option Json :=
  match cache !! key with
  | Some cached => if (expiresAt cached >? now)%Z then Some (payload cached) else None
  | None => None
  end.

(** [today] are the fields of [new Date()], [now] is [Date.now()]; the
    result comes with the cache the call leaves. *)
Definition getDividends (today : DateFields) (now : Z) (ticker : string)
    (from to : option string) (cache : gmap string (Entry Json))
  : (Failure Json + Json) * gmap string (Entry Json) :=
  if negb (truthy ticker) then (inl (BadRequest "ticker is required"), cache)
  else if negb (truthy (orString apiKey EmptyString))
  then (inl (BadRequest "FINNHUB_API_KEY env var is not set"), cache)
  else
    let apiKey := orString apiKey EmptyString in
    let fiveYearsAgo := setFullYear today (fullYear today - 5) in
    let toDate := orString to (formatDate today) in
    let fromDate := orString from (formatDate fiveYearsAgo) in
    let key := cacheKey ticker fromDate toDate in
    match lookup cache key now with
    | Some data => (inr data, cache)
    | None =>
        match calendarGet now (mkParams apiKey ticker fromDate toDate) with
        | Fulfilled data =>
            (inr data, <[key := mkEntry (now + defaultTtlMs) data]> cache)
        | Failed responseData message =>
            (inl (InternalServerError (failureOf responseData message)), cache)
        end
    end.

(** The cache key of a request: its ticker and the range it resolves
    to. *)
Definition requestKey (today : DateFields) (ticker : string) (from to : option string)
  : string :=
  cacheKey ticker
    (orString from (formatDate (setFullYear today (fullYear today - 5))))
    (orString to (formatDate today)).

End WithHost.

End Finnhub.

(** ** A reference host *)

(** One concrete host, to run the service on: collation by code unit
    (the order of every collation on canonical dates), a [Date] that
    reads the format of the source page, ASCII case mapping, a disk that
    accepts every write, and an upstream that serves two of three
    tickers. *)

Module Samples.
Import Js Csv Merge Normalizer Service.

Definition codeUnitCompare (a b : string) : Z :=
  match String.compare a b with
  | Lt => (-1)%Z
  | Eq => 0%Z
  | Gt => 1%Z
  end.

Lemma codeUnitCompare_antisym (a b : string) :
  (0 < codeUnitCompare a b)%Z <-> (codeUnitCompare b a < 0)%Z.
Proof.
  unfold codeUnitCompare. rewrite (String.compare_antisym a b).
  destruct (String.compare b a); simpl; lia.
Qed.

Lemma codeUnitCompare_le (a b : string) :
  (codeUnitCompare a b <= 0)%Z <-> String.le a b.
Proof.
  unfold codeUnitCompare, String.le, String.leb.
  destruct (String.compare a b); simpl; intuition lia.
Qed.

Lemma codeUnitCompare_trans (a b c : string) :
  (codeUnitCompare a b <= 0)%Z -> (codeUnitCompare b c <= 0)%Z ->
  (codeUnitCompare a c <= 0)%Z.
Proof.
  rewrite !codeUnitCompare_le. intros Hab Hbc. transitivity b; assumption.
Qed.

Definition codeUnitCollator : Collator :=
  {| localeCompare := codeUnitCompare;
     localeCompare_antisym := codeUnitCompare_antisym;
     localeCompare_trans := codeUnitCompare_trans |}.

Definition monthIndex (name : string) : option Z :=
  match name with
  | "Jan" => Some 0 | "Feb" => Some 1 | "Mar" => Some 2 | "Apr" => Some 3
  | "May" => Some 4 | "Jun" => Some 5 | "Jul" => Some 6 | "Aug" => Some 7
  | "Sep" => Some 8 | "Oct" => Some 9 | "Nov" => Some 10 | "Dec" => Some 11
  | _ => None
  end%Z.

Fixpoint digitsValue (s : string) (acc : Z) : option Z :=
  match s with
  | EmptyString => Some acc
  | String c rest =>
      if Regex.between "0" "9" c
      then digitsValue rest (10 * acc + (Z.of_N (N_of_ascii c) - 48))%Z
      else None
  end.

(** A [Date] that reads [Mon DD, YYYY] and nothing else. *)
Definition readMonthDayYear (text : string) : Completion DateValue :=
  match text with
  | String a (String b (String c (String " " rest))) =>
      match monthIndex (String a (String b (String c EmptyString))),
            split comma rest with
      | Some month, [day; year] =>
          match digitsValue day 0, digitsValue (trimStart year) 0 with
          | Some d, Some y =>
              if truthy day && (1 <=? d)%Z && (d <=? 31)%Z
                 && (String.length (trimStart year) =? 4)%nat
              then Normal (ValidDate y month d)
              else Normal InvalidDate
          | _, _ => Normal InvalidDate
          end
      | _, _ => Normal InvalidDate
      end
  | _ => Normal InvalidDate
  end.

Definition monthDayYearHost : DateHost := {| newDate := readMonthDayYear |}.

Definition upperChar (c : ascii) : ascii :=
  if Regex.between "a" "z" c then ascii_of_N (N_of_ascii c - 32) else c.
Definition lowerChar (c : ascii) : ascii :=
  if Regex.between "A" "Z" c then ascii_of_N (N_of_ascii c + 32) else c.

Fixpoint mapChars (f : ascii -> ascii) (s : string) : string :=
  match s with
  | EmptyString => EmptyString
  | String c s' => String (f c) (mapChars f s')
  end.

Definition octoberRows : list (list string) :=
  [["Oct 31, 2025"; "$0.2500"; "Oct 31, 2025"; "Nov 3, 2025"];
   ["Oct 24, 2025"; "$0.2400"; "Oct 24, 2025"; "Oct 27, 2025"]].

(** The upstream: pages for AAA and CCC, 404 for anything else. *)
Definition sampleUpstream (now : Z) (url : string) : FetchResult (list (list string)) :=
  if String.eqb url "https://stockanalysis.com/etf/aaa/dividend/" then Response octoberRows
  else if String.eqb url "https://stockanalysis.com/etf/ccc/dividend/" then Response octoberRows
  else Rejected (Some 404%Z) "Request failed with status code 404".

Definition sampleRuntime : Runtime :=
  {| Html := list (list string);
     toUpperCase := mapChars upperChar;
     toLowerCase := mapChars lowerChar;
     cwd := "/app";
     pathJoin := join "/";
     httpGet := sampleUpstream;
     primaryRows := fun doc => doc;
     fallbackRows := fun doc => doc;
     diskRejects := fun _ => false |}.

Definition manifestText : string :=
  join (String newline EmptyString)
    ["Ticker,Name"; "AAA,First fund"; "BBB,Second fund"; "CCC,Third fund"].

Definition emptyCache : gmap string CacheEntry := ∅.

(** Nothing cached, the manifest on disk. *)
Definition manifestWorld : World :=
  mkWorld emptyCache {[ "/app/manifest.csv" := manifestText ]}.

Definition october31 : DividendHistory :=
  mkDividend "2025-10-31" "$0.2500" "2025-10-31" "2025-11-03".
Definition october24 : DividendHistory :=
  mkDividend "2025-10-24" "$0.2400" "2025-10-24" "2025-10-27".
Definition november7 : DividendHistory :=
  mkDividend "2025-11-07" "$0.2600" "2025-11-07" "2025-11-10".
Definition november7special : DividendHistory :=
  mkDividend "2025-11-07" "$1.0000" "2025-11-07" "2025-11-10".

(** AAA cached until time 5000, an older file on disk. *)
Definition cachedWorld : World :=
  mkWorld {[ "AAA" := mkCacheEntry 5000 [october31; october24] ]}
          {[ "/app/out/aaa_dividends.csv" := csvContent [october24] ]}.

(** Records the codec does not give back. *)
Definition quotedAmount : DividendHistory :=
  mkDividend "2025-10-31" ("$0.25 " +:+ String dquote ("special" +:+ String dquote EmptyString))
             "2025-10-31" "2025-11-03".
Definition multilineAmount : DividendHistory :=
  mkDividend "2025-10-31" ("$0.25" +:+ String newline "special") "2025-10-31" "2025-11-03".
Definition paddedAmount : DividendHistory :=
  mkDividend "2025-10-31" " $0.25" "2025-10-31" "2025-11-03".
Definition noPayDate : DividendHistory :=
  mkDividend "2025-10-31" "$0.25" "2025-10-31" EmptyString.

(** A record with a comma, which the codec does give back. *)
Definition commaAmount : DividendHistory :=
  mkDividend "2025-10-17" "$1,000.25" "2025-10-17" "2025-10-20".

(** A host whose documents are one table, inside the table-wrap
    container or not. *)
Definition tableRuntime : Runtime :=
  {| Html := bool * list (list string);
     toUpperCase := mapChars upperChar;
     toLowerCase := mapChars lowerChar;
     cwd := "/app";
     pathJoin := join "/";
     httpGet := fun _ _ => Rejected None "Network Error";
     primaryRows := fun doc => if doc.1 then doc.2 else [];
     fallbackRows := fun doc => doc.2;
     diskRejects := fun _ => false |}.

(** A calendar host: the key set, one known symbol, JSON as text. *)
Definition sampleCalendar (now : Z) (params : Finnhub.Params) : Finnhub.Reply string :=
  if String.eqb (Finnhub.symbol params) "AAPL" then Finnhub.Fulfilled "[{}]"
  else Finnhub.Failed None "Network Error".

Definition calendarHost : Finnhub.Host :=
  {| Finnhub.Json := string;
     Finnhub.jsonTruthy := truthy;
     Finnhub.apiKey := Some "secret";
     Finnhub.setFullYear := fun d y =>
       Finnhub.mkDate y (Finnhub.monthIndex d) (Finnhub.dayOfMonth d);
     Finnhub.calendarGet := sampleCalendar |}.

Definition june15 : Finnhub.DateFields := Finnhub.mkDate 2025 5 15.

Definition noCalendarCache : gmap string (Finnhub.Entry string) := ∅.

End Samples.

(* ================================================================= *)
(** * Properties *)

(** ** Facts about JavaScript strings *)

Module JsFacts.
Import Js.

Lemma app_nil_l (s : string) : EmptyString +:+ s = s.
Proof. reflexivity. Qed.

Lemma app_cons (c : ascii) (s t : string) : String c s +:+ t = String c (s +:+ t).
Proof. reflexivity. Qed.

Lemma app_nil_r (s : string) : s +:+ EmptyString = s.
Proof. induction s as [|c s IH]; [reflexivity|]. rewrite app_cons, IH. reflexivity. Qed.

Lemma app_assoc (s t u : string) : (s +:+ t) +:+ u = s +:+ (t +:+ u).
Proof.
  induction s as [|c s IH]; [reflexivity|].
  rewrite !app_cons, IH. reflexivity.
Qed.

Lemma includes_app (c : ascii) (s t : string) :
  includes c (s +:+ t) = includes c s || includes c t.
Proof.
  induction s as [|c' s IH]; [reflexivity|].
  rewrite app_cons. simpl. rewrite IH. apply orb_assoc.
Qed.

(** *** trim *)

Lemma trimStart_length (s : string) : (String.length (trimStart s) <= String.length s)%nat.
Proof.
  induction s as [|c s IH]; simpl; [lia|].
  destruct (isWhiteSpace c); simpl; lia.
Qed.

Lemma trimEnd_length (s : string) : (String.length (trimEnd s) <= String.length s)%nat.
Proof.
  induction s as [|c s IH]; simpl; [lia|].
  destruct (trimEnd s); [destruct (isWhiteSpace c)|]; simpl in *; lia.
Qed.

Lemma trimStart_fixed (s : string) :
  String.length (trimStart s) = String.length s -> trimStart s = s.
Proof.
  destruct s as [|c s]; simpl; [reflexivity|].
  destruct (isWhiteSpace c); [|reflexivity].
  intros H. pose proof (trimStart_length s). lia.
Qed.

Lemma trimEnd_fixed (s : string) :
  String.length (trimEnd s) = String.length s -> trimEnd s = s.
Proof.
  induction s as [|c s IH]; simpl; [reflexivity|].
  pose proof (trimEnd_length s) as Hle.
  destruct (trimEnd s) as [|c' t] eqn:E.
  - destruct (isWhiteSpace c); simpl; intros H; [lia|].
    destruct s; [reflexivity|simpl in *; lia].
  - simpl. intros H. f_equal. apply IH. simpl in *. lia.
Qed.

(** A string that [trim] leaves alone is left alone by both halves. *)
Lemma trim_fixed (s : string) : trim s = s -> trimStart s = s /\ trimEnd s = s.
Proof.
  unfold trim. intros H.
  pose proof (trimStart_length s). pose proof (trimEnd_length (trimStart s)).
  assert (trimStart s = s) as Hs.
  { apply trimStart_fixed. rewrite <- H at 2. rewrite H in *. lia. }
  split; [exact Hs|]. rewrite Hs in H. exact H.
Qed.

(** Leading white space is the only thing [trimStart] looks at. *)
Lemma trimStart_app_stop (s : string) (c : ascii) (t : string) :
  isWhiteSpace c = false ->
  trimStart (s +:+ String c t) = trimStart s +:+ String c t.
Proof.
  intros Hc. induction s as [|c' s IH].
  - rewrite app_nil_l. simpl. rewrite Hc. reflexivity.
  - rewrite app_cons. simpl. destruct (isWhiteSpace c'); [exact IH|reflexivity].
Qed.

Lemma trimEnd_app (s t : string) :
  trimEnd t <> EmptyString -> trimEnd (s +:+ t) = s +:+ trimEnd t.
Proof.
  intros Ht. induction s as [|c s IH]; [reflexivity|].
  rewrite !app_cons. simpl. rewrite IH.
  destruct (s +:+ trimEnd t) eqn:E; [|reflexivity].
  destruct s; [rewrite app_nil_l in E; contradiction|discriminate].
Qed.

Lemma trimEnd_last (s : string) (c : ascii) :
  isWhiteSpace c = false -> trimEnd (s +:+ String c EmptyString) = s +:+ String c EmptyString.
Proof.
  intros Hc. rewrite trimEnd_app; simpl; rewrite Hc; [reflexivity|discriminate].
Qed.

Lemma trimEnd_nonempty (s : string) :
  trimEnd s = s -> s <> EmptyString -> trimEnd s <> EmptyString.
Proof. intros -> H. exact H. Qed.

Lemma trimStart_idem (s : string) : trimStart (trimStart s) = trimStart s.
Proof.
  induction s as [|c s IH]; [reflexivity|]. simpl.
  destruct (isWhiteSpace c) eqn:E; [exact IH|]. simpl. rewrite E. reflexivity.
Qed.

Lemma trimEnd_idem (s : string) : trimEnd (trimEnd s) = trimEnd s.
Proof.
  induction s as [|c s IH]; [reflexivity|]. simpl.
  destruct (trimEnd s) as [|c' t] eqn:E.
  - destruct (isWhiteSpace c) eqn:Ec; simpl; [reflexivity|]. rewrite Ec. reflexivity.
  - change (trimEnd (String c (String c' t)))
      with (match trimEnd (String c' t) with
            | EmptyString => if isWhiteSpace c then EmptyString else String c EmptyString
            | t0 => String c t0
            end).
    rewrite IH. reflexivity.
Qed.

Lemma trimStart_trimEnd (s : string) :
  trimStart s = s -> trimStart (trimEnd s) = trimEnd s.
Proof.
  destruct s as [|c s]; [reflexivity|]. simpl.
  destruct (isWhiteSpace c) eqn:Ec.
  - intros Hs. pose proof (trimStart_length s) as Hle. rewrite Hs in Hle.
    simpl in Hle. lia.
  - intros _. destruct (trimEnd s); simpl; rewrite Ec; reflexivity.
Qed.

Lemma trim_idem (s : string) : trim (trim s) = trim s.
Proof.
  unfold trim. rewrite (trimStart_trimEnd _ (trimStart_idem s)). apply trimEnd_idem.
Qed.

Lemma includes_trimStart (c : ascii) (s : string) :
  includes c s = false -> includes c (trimStart s) = false.
Proof.
  induction s as [|c' s IH]; [reflexivity|]. simpl.
  intros [H1 H2]%orb_false_elim.
  destruct (isWhiteSpace c'); [exact (IH H2)|]. simpl. rewrite H1. exact H2.
Qed.

Lemma includes_trimEnd (c : ascii) (s : string) :
  includes c s = false -> includes c (trimEnd s) = false.
Proof.
  induction s as [|c' s IH]; [reflexivity|]. simpl.
  intros [H1 H2]%orb_false_elim. specialize (IH H2).
  destruct (trimEnd s).
  - destruct (isWhiteSpace c'); simpl; [reflexivity|]. rewrite H1. reflexivity.
  - cbn [includes] in *. rewrite H1. exact IH.
Qed.

Lemma includes_trim (c : ascii) (s : string) :
  includes c s = false -> includes c (trim s) = false.
Proof. intros Hs. apply includes_trimEnd, includes_trimStart, Hs. Qed.

(** *** split and join *)

Lemma split_nonempty (sep : ascii) (s : string) : split sep s <> [].
Proof.
  induction s as [|c s IH]; simpl; [discriminate|].
  destruct (Ascii.eqb c sep); [discriminate|].
  destruct (split sep s); [contradiction|discriminate].
Qed.

Lemma split_none (sep : ascii) (s : string) :
  includes sep s = false -> split sep s = [s].
Proof.
  induction s as [|c s IH]; simpl; [reflexivity|].
  intros [Hc Hs]%orb_false_elim. rewrite Hc, (IH Hs). reflexivity.
Qed.

Lemma split_no_sep (sep : ascii) (s piece : string) :
  In piece (split sep s) -> includes sep piece = false.
Proof.
  revert piece. induction s as [|c s IH]; intros piece; simpl.
  - intros [<- | []]. reflexivity.
  - destruct (Ascii.eqb c sep) eqn:Ec.
    + intros [<- | Hin]; [reflexivity|exact (IH _ Hin)].
    + destruct (split sep s) as [|p ps]; simpl.
      * intros [<- | []]. simpl. rewrite Ec. reflexivity.
      * intros [<- | Hin]; [|apply IH; right; exact Hin].
        simpl. rewrite Ec. apply IH. left. reflexivity.
Qed.

Lemma split_app (sep : ascii) (s t : string) :
  split sep (s +:+ String sep t) = split sep s ++ split sep t.
Proof.
  induction s as [|c s IH].
  - rewrite app_nil_l. simpl. rewrite Ascii.eqb_refl. reflexivity.
  - rewrite app_cons. simpl. destruct (Ascii.eqb c sep).
    + rewrite IH. reflexivity.
    + rewrite IH. pose proof (split_nonempty sep s).
      destruct (split sep s); [contradiction|reflexivity].
Qed.

Lemma join_cons (sep p : string) (rest : list string) :
  rest <> [] -> join sep (p :: rest) = p +:+ sep +:+ join sep rest.
Proof. destruct rest; [contradiction|reflexivity]. Qed.

(** Splitting a newline-joined text yields the pieces of each part. *)
Lemma split_join (sep : ascii) (parts : list string) :
  parts <> [] ->
  split sep (join (String sep EmptyString) parts) = List.concat (map (split sep) parts).
Proof.
  induction parts as [|p rest IH]; [contradiction|]. intros _.
  destruct rest as [|q rest].
  - simpl. rewrite List.app_nil_r. reflexivity.
  - rewrite join_cons by discriminate.
    rewrite app_cons, app_nil_l, split_app, IH by discriminate. reflexivity.
Qed.

End JsFacts.

(** ** The delimited-text codec *)

Module CsvFacts.
Import Js Csv JsFacts.

(** *** The decoder as a map over the lines *)

Lemma readLine_acc (dividends : list DividendHistory) (rawLine : string) :
  readLine dividends rawLine = dividends ++ readLine [] rawLine.
Proof.
  unfold readLine.
  destruct (negb (truthy (trim rawLine))); [symmetry; apply List.app_nil_r|].
  destruct (4 <=? length (parseCsvLine (trim rawLine)))%nat;
    [reflexivity|symmetry; apply List.app_nil_r].
Qed.

Lemma fold_readLine (lines : list string) (dividends : list DividendHistory) :
  fold_left readLine lines dividends = dividends ++ flat_map (readLine []) lines.
Proof.
  revert dividends. induction lines as [|l lines IH]; intros dividends; simpl.
  - symmetry. apply List.app_nil_r.
  - rewrite IH, (readLine_acc dividends l), <- List.app_assoc. reflexivity.
Qed.

Lemma csvContent_lines (dividends : list DividendHistory) :
  split newline (csvContent dividends) =
  "Ex-Dividend Date,Cash Amount,Record Date,Pay Date"
    :: split newline (join (String newline EmptyString) (map csvRow dividends)).
Proof.
  unfold csvContent, header. rewrite app_assoc.
  change (String newline EmptyString +:+ ?body) with (String newline body).
  rewrite split_app. reflexivity.
Qed.

(** Decoding the encoder's output: every line after the header is read
    on its own, in order. *)
Lemma readCsvContent_csvContent (dividends : list DividendHistory) :
  readCsvContent (csvContent dividends) =
  flat_map (readLine [])
    (List.filter nonblank (List.concat (map (split newline) (map csvRow dividends)))).
Proof.
  unfold readCsvContent. rewrite csvContent_lines.
  destruct dividends as [|d rest]; [reflexivity|].
  rewrite split_join by discriminate.
  change (List.filter _ (?h :: ?t)) with (h :: List.filter nonblank t).
  fold nonblank.
  destruct (List.filter nonblank _) as [|l ls] eqn:E; [reflexivity|].
  change (tail (_ :: ?t)) with t.
  change ((length (_ :: l :: ls) <? 2)%nat) with false.
  cbv iota. rewrite fold_readLine. reflexivity.
Qed.

(** *** The tokenizer on encoded fields *)

Lemma doubleQuotes_none (f : string) :
  includes dquote f = false -> doubleQuotes f = f.
Proof.
  induction f as [|c f IH]; simpl; [reflexivity|].
  intros [Hc Hf]%orb_false_elim. rewrite Hc, (IH Hf). reflexivity.
Qed.

(** Characters that neither toggle nor split are appended to [current]. *)
Lemma loop_field (f rest : string) (values : list string) (current : string) (q : bool) :
  includes dquote f = false ->
  q = true \/ includes comma f = false ->
  parseCsvLoop (f +:+ rest) values current q =
  parseCsvLoop rest values (current +:+ f) q.
Proof.
  revert current. induction f as [|c f IH]; intros current Hq Hc.
  - rewrite app_nil_l, app_nil_r. reflexivity.
  - simpl in Hq. apply orb_false_elim in Hq as [Hq1 Hq2].
    rewrite app_cons. simpl. rewrite Hq1.
    assert (Ascii.eqb c comma && negb q = false) as ->.
    { destruct Hc as [-> | Hc]; [apply andb_false_r|].
      simpl in Hc. apply orb_false_elim in Hc as [-> _]. reflexivity. }
    rewrite IH.
    + rewrite app_assoc, app_cons, app_nil_l. reflexivity.
    + exact Hq2.
    + destruct Hc as [Hc | Hc]; [left; exact Hc|right].
      simpl in Hc. apply orb_false_elim in Hc as [_ Hc]. exact Hc.
Qed.

(** An encoded quote-free field leaves the field in [current], outside
    quotes. *)
Lemma loop_escaped (f rest : string) (values : list string) :
  includes dquote f = false ->
  parseCsvLoop (escapeCsv f +:+ rest) values EmptyString false =
  parseCsvLoop rest values f false.
Proof.
  intros Hq. unfold escapeCsv.
  destruct (includes comma f || includes dquote f || includes newline f) eqn:E.
  - rewrite (doubleQuotes_none f Hq), app_cons, app_assoc, app_cons, app_nil_l.
    simpl. rewrite loop_field by auto. simpl. reflexivity.
  - apply orb_false_elim in E as [E _]. apply orb_false_elim in E as [E _].
    rewrite loop_field by auto. reflexivity.
Qed.

Lemma loop_comma (rest : string) (values : list string) (current : string) :
  parseCsvLoop (String comma rest) values current false =
  parseCsvLoop rest (values ++ [trim current]) EmptyString false.
Proof. reflexivity. Qed.

Lemma csvRow_eq (d : DividendHistory) :
  csvRow d =
  escapeCsv (exDividendDate d) +:+ String comma
    (escapeCsv (cashAmount d) +:+ String comma
      (escapeCsv (recordDate d) +:+ String comma (escapeCsv (payDate d)))).
Proof. reflexivity. Qed.

(** The tokens of an encoded row whose fields hold no double quote. *)
Lemma parseCsvLine_csvRow (d : DividendHistory) :
  includes dquote (exDividendDate d) = false ->
  includes dquote (cashAmount d) = false ->
  includes dquote (recordDate d) = false ->
  includes dquote (payDate d) = false ->
  parseCsvLine (csvRow d) =
  [trim (exDividendDate d); trim (cashAmount d); trim (recordDate d)]
    ++ (if truthy (payDate d) then [trim (payDate d)] else []).
Proof.
  intros H1 H2 H3 H4. rewrite csvRow_eq. unfold parseCsvLine.
  rewrite (loop_escaped _ _ _ H1), loop_comma.
  rewrite (loop_escaped _ _ _ H2), loop_comma.
  rewrite (loop_escaped _ _ _ H3), loop_comma.
  rewrite <- (app_nil_r (escapeCsv (payDate d))).
  rewrite (loop_escaped _ _ _ H4). simpl.
  destruct (truthy (payDate d)); reflexivity.
Qed.

(** *** Rows that survive the decoder *)

Lemma includes_escapeCsv_newline (f : string) :
  includes dquote f = false -> includes newline f = false ->
  includes newline (escapeCsv f) = false.
Proof.
  intros Hq Hn. unfold escapeCsv.
  destruct (includes comma f || includes dquote f || includes newline f); [|exact Hn].
  rewrite (doubleQuotes_none f Hq). simpl. rewrite includes_app, Hn. reflexivity.
Qed.

Lemma trimStart_escapeCsv (f : string) :
  trimStart f = f -> trimStart (escapeCsv f) = escapeCsv f.
Proof.
  intros H. unfold escapeCsv.
  destruct (includes comma f || includes dquote f || includes newline f);
    [reflexivity|exact H].
Qed.

Lemma trimEnd_escapeCsv (f : string) :
  trimEnd f = f -> f <> EmptyString ->
  trimEnd (escapeCsv f) = escapeCsv f /\ escapeCsv f <> EmptyString.
Proof.
  intros H Hne. unfold escapeCsv.
  destruct (includes comma f || includes dquote f || includes newline f);
    [|split; assumption].
  split; [|discriminate].
  rewrite <- app_cons. apply trimEnd_last. reflexivity.
Qed.

Lemma escapeCsv_plain (f : string) : plainField f -> escapeCsv f = f.
Proof. intros (Hc & Hq & Hn). unfold escapeCsv. rewrite Hc, Hq, Hn. reflexivity. Qed.

(** The last field put apart, for reasoning from the end of the row. *)
Lemma csvRow_last (d : DividendHistory) :
  csvRow d =
  (escapeCsv (exDividendDate d) +:+ String comma
    (escapeCsv (cashAmount d) +:+ String comma
      (escapeCsv (recordDate d) +:+ String comma EmptyString)))
  +:+ escapeCsv (payDate d).
Proof.
  rewrite csvRow_eq.
  repeat (rewrite app_assoc || rewrite app_cons || rewrite app_nil_l).
  reflexivity.
Qed.

Lemma csvRow_no_newline (d : DividendHistory) :
  preserved d -> includes newline (csvRow d) = false.
Proof.
  intros ((Q1 & N1 & _) & (Q2 & N2 & _) & (Q3 & N3 & _) & (Q4 & N4 & _) & _).
  rewrite csvRow_eq.
  repeat (rewrite includes_app; cbn [includes]).
  rewrite !includes_escapeCsv_newline by assumption. reflexivity.
Qed.

Lemma trim_csvRow (d : DividendHistory) : preserved d -> trim (csvRow d) = csvRow d.
Proof.
  intros ((_ & _ & T1) & _ & _ & (_ & _ & T4) & Hne).
  apply trim_fixed in T1 as [T1 _]. apply trim_fixed in T4 as [_ T4].
  unfold trim.
  assert (trimStart (csvRow d) = csvRow d) as ->.
  { rewrite csvRow_eq, trimStart_app_stop by reflexivity.
    rewrite (trimStart_escapeCsv _ T1). reflexivity. }
  destruct (trimEnd_escapeCsv _ T4 Hne) as [E4 N4].
  rewrite csvRow_last, trimEnd_app by (rewrite E4; exact N4).
  rewrite E4. reflexivity.
Qed.

Lemma csvRow_truthy (d : DividendHistory) : truthy (csvRow d) = true.
Proof.
  rewrite csvRow_eq. destruct (escapeCsv (exDividendDate d)); reflexivity.
Qed.

(** A preserved record is read back from its own line. *)
Lemma readLine_csvRow (d : DividendHistory) :
  preserved d -> readLine [] (csvRow d) = [d].
Proof.
  intros Hd. unfold readLine. rewrite (trim_csvRow d Hd), csvRow_truthy.
  destruct Hd as ((Q1 & _ & T1) & (Q2 & _ & T2) & (Q3 & _ & T3) & (Q4 & _ & T4) & Hne).
  rewrite parseCsvLine_csvRow by assumption.
  rewrite T1, T2, T3, T4.
  destruct d as [f1 f2 f3 f4]; simpl in *.
  destruct f4; [contradiction|reflexivity].
Qed.

Lemma decode_rows_preserved (dividends : list DividendHistory) :
  Forall preserved dividends ->
  flat_map (readLine [])
    (List.filter nonblank (List.concat (map (split newline) (map csvRow dividends))))
  = dividends.
Proof.
  induction 1 as [|d rest Hd _ IH]; [reflexivity|].
  cbn [map List.concat].
  rewrite (split_none _ _ (csvRow_no_newline d Hd)).
  cbn [app List.filter]. unfold nonblank at 1.
  rewrite (trim_csvRow d Hd), csvRow_truthy.
  cbn [flat_map]. rewrite (readLine_csvRow d Hd), IH. reflexivity.
Qed.

Lemma readCsvContent_preserved (history : list DividendHistory) :
  Forall preserved history -> readCsvContent (csvContent history) = history.
Proof.
  intros Hp. rewrite readCsvContent_csvContent. apply decode_rows_preserved, Hp.
Qed.

(** *** Rows with an empty last field *)

(** The encoded row of a record with plain fields and no pay date, and
    the row as the decoder trims it. *)
Lemma csvRow_empty_payDate (r : DividendHistory) :
  payDate r = EmptyString ->
  plainField (exDividendDate r) -> plainField (cashAmount r) ->
  plainField (recordDate r) ->
  csvRow r =
    exDividendDate r +:+ String comma
      (cashAmount r +:+ String comma (recordDate r +:+ String comma EmptyString))
  /\ trim (csvRow r) =
    trimStart (exDividendDate r) +:+ String comma
      (cashAmount r +:+ String comma (recordDate r +:+ String comma EmptyString)).
Proof.
  intros Hp H1 H2 H3.
  assert (csvRow r =
    exDividendDate r +:+ String comma
      (cashAmount r +:+ String comma (recordDate r +:+ String comma EmptyString))) as E.
  { rewrite csvRow_eq, Hp, !escapeCsv_plain by assumption. reflexivity. }
  split; [exact E|]. rewrite E. unfold trim.
  rewrite trimStart_app_stop by reflexivity.
  set (a := trimStart (exDividendDate r)).
  assert (a +:+ String comma
           (cashAmount r +:+ String comma (recordDate r +:+ String comma EmptyString))
          = (a +:+ String comma (cashAmount r +:+ String comma (recordDate r)))
            +:+ String comma EmptyString) as ->.
  { repeat (rewrite app_assoc || rewrite app_cons || rewrite app_nil_l). reflexivity. }
  apply trimEnd_last. reflexivity.
Qed.

(** Three commas outside quotes and nothing after the last one: three
    tokens. *)
Lemma parseCsvLine_empty_payDate (r : DividendHistory) :
  payDate r = EmptyString ->
  plainField (exDividendDate r) -> plainField (cashAmount r) ->
  plainField (recordDate r) ->
  parseCsvLine (trim (csvRow r)) =
  [trim (exDividendDate r); trim (cashAmount r); trim (recordDate r)].
Proof.
  intros Hp H1 H2 H3.
  destruct (csvRow_empty_payDate r Hp H1 H2 H3) as [_ ->].
  destruct H1 as (C1 & Q1 & _), H2 as (C2 & Q2 & _), H3 as (C3 & Q3 & _).
  unfold parseCsvLine.
  rewrite loop_field, loop_comma, app_nil_l
    by (try right; apply includes_trimStart; assumption).
  rewrite loop_field, loop_comma, app_nil_l by auto.
  rewrite loop_field, loop_comma, app_nil_l by auto.
  simpl. unfold trim at 1. rewrite trimStart_idem. reflexivity.
Qed.

Lemma readLine_empty_payDate (r : DividendHistory) (dividends : list DividendHistory) :
  payDate r = EmptyString ->
  plainField (exDividendDate r) -> plainField (cashAmount r) ->
  plainField (recordDate r) ->
  readLine dividends (csvRow r) = dividends.
Proof.
  intros Hp H1 H2 H3. unfold readLine.
  rewrite (parseCsvLine_empty_payDate r Hp H1 H2 H3).
  destruct (negb (truthy (trim (csvRow r)))); reflexivity.
Qed.

(** *** What the decoder can return *)

Lemma cleanField_empty : cleanField EmptyString.
Proof. repeat split. Qed.

Lemma cleanField_trim (s : string) :
  includes dquote s = false -> includes newline s = false -> cleanField (trim s).
Proof.
  intros Hq Hn. repeat split; [apply includes_trim, Hq|apply includes_trim, Hn|].
  apply trim_idem.
Qed.

(** The tokenizer never returns a quote, and on a line of a file
    neither a newline nor white space around a token. *)
Lemma parseCsvLoop_clean (line : string) (values : list string) (current : string)
    (q : bool) :
  includes newline line = false ->
  Forall cleanField values ->
  includes dquote current = false -> includes newline current = false ->
  Forall cleanField (parseCsvLoop line values current q).
Proof.
  revert values current q.
  induction line as [|c line IH]; intros values current q Hline Hvalues Hq Hn; simpl.
  - destruct (truthy current); [|exact Hvalues].
    apply List.Forall_app. split; [exact Hvalues|].
    constructor; [apply cleanField_trim; assumption|constructor].
  - simpl in Hline. apply orb_false_elim in Hline as [Hc Hline].
    destruct (Ascii.eqb c dquote) eqn:Ecq; [apply IH; assumption|].
    destruct (Ascii.eqb c comma && negb q).
    + apply IH; [exact Hline| |reflexivity|reflexivity].
      apply List.Forall_app. split; [exact Hvalues|].
      constructor; [apply cleanField_trim; assumption|constructor].
    + apply IH; [exact Hline|exact Hvalues| |].
      * rewrite includes_app, Hq. simpl. rewrite Ecq. reflexivity.
      * rewrite includes_app, Hn. simpl. rewrite Hc. reflexivity.
Qed.

Lemma nth_clean (i : nat) (values : list string) :
  Forall cleanField values -> cleanField (nth i values EmptyString).
Proof.
  intros Hall. destruct (nth_in_or_default i values EmptyString) as [Hin | ->].
  - rewrite List.Forall_forall in Hall. exact (Hall _ Hin).
  - exact cleanField_empty.
Qed.

Lemma readLine_clean (rawLine : string) :
  includes newline rawLine = false -> Forall cleanRecord (readLine [] rawLine).
Proof.
  intros Hline. unfold readLine.
  destruct (negb (truthy (trim rawLine))); [constructor|].
  destruct (4 <=? length (parseCsvLine (trim rawLine)))%nat; [|constructor].
  assert (Forall cleanField (parseCsvLine (trim rawLine))) as Hall.
  { apply parseCsvLoop_clean; [apply includes_trim, Hline|constructor|reflexivity..]. }
  constructor; [|constructor].
  repeat split; apply nth_clean, Hall.
Qed.

Lemma in_tail {A : Type} (x : A) (l : list A) : In x (tail l) -> In x l.
Proof. destruct l; [intros []|right; assumption]. Qed.

Lemma readCsvContent_clean (content : string) :
  Forall cleanRecord (readCsvContent content).
Proof.
  unfold readCsvContent.
  destruct (length _ <? 2)%nat; [constructor|].
  rewrite fold_readLine. cbn [app].
  apply List.Forall_forall. intros d (line & Hline & Hd)%in_flat_map.
  apply in_tail, List.filter_In in Hline as [Hline _].
  apply split_no_sep in Hline.
  pose proof (readLine_clean line Hline) as Hall.
  rewrite List.Forall_forall in Hall. exact (Hall d Hd).
Qed.

Lemma csvRow_clean_no_newline (d : DividendHistory) :
  cleanRecord d -> includes newline (csvRow d) = false.
Proof.
  intros ((Q1 & N1 & _) & (Q2 & N2 & _) & (Q3 & N3 & _) & (Q4 & N4 & _)).
  rewrite csvRow_eq.
  repeat (rewrite includes_app; cbn [includes]).
  rewrite !includes_escapeCsv_newline by assumption. reflexivity.
Qed.

(** A clean record without pay date is not read back. *)
Lemma readLine_clean_empty_payDate (d : DividendHistory) :
  cleanRecord d -> payDate d = EmptyString -> readLine [] (csvRow d) = [].
Proof.
  intros ((Q1 & _ & T1) & (Q2 & _) & (Q3 & _) & (Q4 & _)) Hpay.
  apply trim_fixed in T1 as [T1 _].
  assert (trim (csvRow d) = csvRow d) as Htrim.
  { unfold trim.
    assert (trimStart (csvRow d) = csvRow d) as ->.
    { rewrite csvRow_eq, trimStart_app_stop by reflexivity.
      rewrite (trimStart_escapeCsv _ T1). reflexivity. }
    rewrite csvRow_eq, Hpay.
    change (escapeCsv EmptyString) with EmptyString.
    set (e1 := escapeCsv (exDividendDate d)).
    set (e2 := escapeCsv (cashAmount d)).
    set (e3 := escapeCsv (recordDate d)).
    assert (e1 +:+ String comma (e2 +:+ String comma (e3 +:+ String comma EmptyString))
            = (e1 +:+ String comma (e2 +:+ String comma e3)) +:+ String comma EmptyString)
      as ->.
    { repeat (rewrite app_assoc || rewrite app_cons || rewrite app_nil_l). reflexivity. }
    apply trimEnd_last. reflexivity. }
  unfold readLine. rewrite Htrim, parseCsvLine_csvRow by assumption.
  rewrite Hpay. destruct (negb (truthy (csvRow d))); reflexivity.
Qed.

(** The records that survive a round trip on their own are exactly the
    preserved ones. *)
Lemma round_trip_only_preserved (d : DividendHistory) :
  readCsvContent (csvContent [d]) = [d] -> preserved d.
Proof.
  intros Hrt.
  assert (cleanRecord d) as Hclean.
  { pose proof (readCsvContent_clean (csvContent [d])) as Hall.
    rewrite Hrt in Hall. inversion Hall. assumption. }
  destruct Hclean as (C1 & C2 & C3 & C4).
  repeat split; try apply C1; try apply C2; try apply C3; try apply C4.
  intros Hpay.
  rewrite readCsvContent_csvContent in Hrt. cbn [map List.concat] in Hrt.
  rewrite (split_none _ _ (csvRow_clean_no_newline d (conj C1 (conj C2 (conj C3 C4))))) in Hrt.
  cbn [app List.filter] in Hrt.
  destruct (nonblank (csvRow d)); [|discriminate].
  cbn [flat_map] in Hrt.
  rewrite (readLine_clean_empty_payDate d (conj C1 (conj C2 (conj C3 C4))) Hpay) in Hrt.
  discriminate.
Qed.

End CsvFacts.

(** ** The merge engine *)

Module MergeFacts.
Import Merge.

(** *** The sort, for any comparator *)

Section SortFacts.
Context {A : Type} (comparefn : A -> A -> Z).

Lemma insertSorted_perm (x : A) (l : list A) :
  Permutation (x :: l) (insertSorted comparefn x l).
Proof.
  induction l as [|y l IH]; simpl; [reflexivity|].
  destruct (comparefn x y <=? 0)%Z; [reflexivity|].
  rewrite perm_swap. apply perm_skip, IH.
Qed.

Lemma arraySort_perm (l : list A) : Permutation l (arraySort comparefn l).
Proof.
  induction l as [|x l IH]; simpl; [reflexivity|].
  rewrite <- insertSorted_perm. apply perm_skip, IH.
Qed.

(** A sorted array is left as it is. *)
Lemma arraySort_sorted_id (l : list A) :
  Sorted (inOrder comparefn) l -> arraySort comparefn l = l.
Proof.
  induction 1 as [|x l Hs IH Hd]; simpl; [reflexivity|].
  rewrite IH. destruct Hd as [|y l Hxy]; [reflexivity|].
  simpl. unfold inOrder in Hxy.
  destruct (Z.leb_spec (comparefn x y) 0); [reflexivity|lia].
Qed.

(** What the sort needs from a consistent comparator. *)
Hypothesis comparefn_total :
  forall x y, (0 < comparefn x y)%Z -> (comparefn y x <= 0)%Z.

Lemma insertSorted_hd (x y : A) (l : list A) :
  inOrder comparefn y x -> HdRel (inOrder comparefn) y l ->
  HdRel (inOrder comparefn) y (insertSorted comparefn x l).
Proof.
  intros Hyx Hd. destruct l as [|z l]; simpl; [constructor; exact Hyx|].
  destruct (comparefn x z <=? 0)%Z; constructor; [exact Hyx|].
  inversion Hd; assumption.
Qed.

Lemma insertSorted_sorted (x : A) (l : list A) :
  Sorted (inOrder comparefn) l -> Sorted (inOrder comparefn) (insertSorted comparefn x l).
Proof.
  induction 1 as [|y l Hs IH Hd]; simpl; [repeat constructor|].
  destruct (Z.leb_spec (comparefn x y) 0) as [Hle|Hgt].
  - constructor; [constructor; assumption|constructor; exact Hle].
  - constructor; [exact IH|].
    apply insertSorted_hd; [apply comparefn_total; exact Hgt|exact Hd].
Qed.

Lemma arraySort_sorted (l : list A) : Sorted (inOrder comparefn) (arraySort comparefn l).
Proof.
  induction l as [|x l IH]; simpl; [constructor|].
  apply insertSorted_sorted, IH.
Qed.

Hypothesis comparefn_trans :
  forall x y z, (comparefn x y <= 0)%Z -> (comparefn y z <= 0)%Z ->
                (comparefn x z <= 0)%Z.
Hypothesis comparefn_antisym :
  forall x y, (0 < comparefn x y)%Z <-> (comparefn y x < 0)%Z.

Lemma insertSorted_ties (k x : A) (l : list A) :
  tiesOf comparefn k (insertSorted comparefn x l) = tiesOf comparefn k (x :: l).
Proof.
  induction l as [|y l IH]; [reflexivity|].
  cbn [insertSorted].
  destruct (Z.leb_spec (comparefn x y) 0) as [Hle|Hgt]; [reflexivity|].
  unfold tiesOf in *. cbn [List.filter] in *. rewrite IH.
  destruct (Z.eqb_spec (comparefn k x) 0) as [Hkx|Hkx]; [|reflexivity].
  destruct (Z.eqb_spec (comparefn k y) 0) as [Hky|Hky]; [|reflexivity].
  exfalso.
  assert (comparefn x k <= 0)%Z as Hxk.
  { destruct (Z.le_gt_cases (comparefn x k) 0) as [?|Hpos]; [assumption|].
    apply comparefn_antisym in Hpos. lia. }
  pose proof (comparefn_trans x k y Hxk ltac:(lia)). lia.
Qed.

(** The sort is stable: elements that compare equal keep their order. *)
Lemma arraySort_stable (k : A) (l : list A) :
  tiesOf comparefn k (arraySort comparefn l) = tiesOf comparefn k l.
Proof.
  induction l as [|x l IH]; [reflexivity|].
  cbn [arraySort fold_right]. rewrite insertSorted_ties.
  unfold tiesOf in *. cbn [List.filter]. fold (arraySort comparefn l).
  rewrite IH. reflexivity.
Qed.

End SortFacts.

(** *** Code-unit order *)

Lemma gtb_leb (a b : string) : gtb a b = negb (String.leb a b).
Proof. unfold gtb, String.leb. destruct (String.compare a b); reflexivity. Qed.

Lemma gtb_irrefl (a : string) : gtb a a = false.
Proof.
  unfold gtb. pose proof (String.compare_antisym a a) as E.
  destruct (String.compare a a); simpl in E; congruence.
Qed.

Lemma gtb_asym (a b : string) : gtb a b = true -> gtb b a = false.
Proof.
  unfold gtb. rewrite (String.compare_antisym a b).
  destruct (String.compare b a); simpl; congruence.
Qed.

Lemma gtb_trans (a b c : string) : gtb a b = true -> gtb b c = true -> gtb a c = true.
Proof.
  rewrite !gtb_leb, !negb_true_iff. intros Hab Hbc.
  destruct (String.leb a c) eqn:Hac; [exfalso|reflexivity].
  destruct (String.leb_total b a) as [Hba|Hba]; [|congruence].
  assert (String.le b c) as Hle.
  { transitivity a; unfold String.le; [rewrite Hba|rewrite Hac]; exact I. }
  unfold String.le in Hle. rewrite Hbc in Hle. exact Hle.
Qed.

(** *** The merge *)

Section WithCollator.
Context {collator : Collator}.

Lemma byDateDesc_total (x y : DividendHistory) :
  (0 < byDateDesc x y)%Z -> (byDateDesc y x <= 0)%Z.
Proof. unfold byDateDesc. intros Hpos%localeCompare_antisym. lia. Qed.

Lemma byDateDesc_trans (x y z : DividendHistory) :
  (byDateDesc x y <= 0)%Z -> (byDateDesc y z <= 0)%Z -> (byDateDesc x z <= 0)%Z.
Proof. unfold byDateDesc. intros Hxy Hyz. exact (localeCompare_trans _ _ _ Hyz Hxy). Qed.

Lemma byDateDesc_antisym (x y : DividendHistory) :
  (0 < byDateDesc x y)%Z <-> (byDateDesc y x < 0)%Z.
Proof. unfold byDateDesc. apply localeCompare_antisym. Qed.

Lemma arraySort_sortedDescendingOf (l : list DividendHistory) :
  sortedDescendingOf l (arraySort byDateDesc l).
Proof.
  split; [apply arraySort_perm|split].
  - apply (arraySort_sorted byDateDesc byDateDesc_total).
  - intros k.
    apply (arraySort_stable byDateDesc byDateDesc_trans byDateDesc_antisym k).
Qed.

Lemma mergeDividends_perm (existing harvested : list DividendHistory) :
  Permutation (newerEntries existing harvested ++ existing)
              (mergeDividends existing harvested).
Proof.
  destruct existing as [|first rest]; simpl.
  - rewrite List.app_nil_r. apply arraySort_perm.
  - apply arraySort_perm.
Qed.

Lemma strictlyDescending_strongly (history : list DividendHistory) :
  strictlyDescending history ->
  StronglySorted (fun a b => gtb (exDividendDate a) (exDividendDate b) = true) history.
Proof.
  apply Sorted_StronglySorted. intros a b c. apply gtb_trans.
Qed.

Lemma strictlyDescending_NoDup (history : list DividendHistory) :
  strictlyDescending history -> List.NoDup (map exDividendDate history).
Proof.
  intros Hs%strictlyDescending_strongly.
  induction Hs as [|x l Hs IH Hx]; simpl; constructor; [|exact IH].
  intros (y & Hy & Hin)%List.in_map_iff.
  rewrite List.Forall_forall in Hx. specialize (Hx y Hin).
  rewrite Hy, gtb_irrefl in Hx. discriminate.
Qed.

Lemma newer_not_existing (first : DividendHistory) (rest harvested : list DividendHistory) :
  strictlyDescending (first :: rest) ->
  forall date,
    In date (map exDividendDate (newerEntries (first :: rest) harvested)) ->
    ~ In date (map exDividendDate (first :: rest)).
Proof.
  intros Hs%strictlyDescending_strongly date.
  intros (d & <- & Hd)%List.in_map_iff (e & Heq & He)%List.in_map_iff.
  simpl in Hd. apply List.filter_In in Hd as [_ Hd].
  apply StronglySorted_inv in Hs as [_ Hall].
  rewrite List.Forall_forall in Hall.
  destruct He as [<- | He].
  - rewrite Heq, gtb_irrefl in Hd. discriminate.
  - specialize (Hall e He). rewrite Heq in Hall.
    apply gtb_asym in Hall. congruence.
Qed.

End WithCollator.

End MergeFacts.

(** ** The record normalizer *)

Module NormalizerFacts.
Import Js Normalizer.

Lemma forall_range (p : Z -> bool) (lo n : Z) :
  forallb (fun i => p (lo + Z.of_nat i)%Z) (seq 0 (Z.to_nat n)) = true ->
  forall z, (lo <= z < lo + n)%Z -> p z = true.
Proof.
  intros Hall z Hz. rewrite forallb_forall in Hall.
  specialize (Hall (Z.to_nat (z - lo))).
  replace (lo + Z.of_nat (Z.to_nat (z - lo)))%Z with z in Hall by lia.
  apply Hall, in_seq. lia.
Qed.

Lemma numberToString_fourDigits (year : Z) :
  (1000 <= year <= 9999)%Z -> numberToString year = fourDigits year.
Proof.
  intros Hy. apply String.eqb_eq.
  apply (forall_range (fun y => String.eqb (numberToString y) (fourDigits y)) 1000 9000);
    [vm_compute; reflexivity|lia].
Qed.

Lemma padStart_twoDigits (n : Z) :
  (0 <= n <= 99)%Z -> padStart 2 "0" (numberToString n) = twoDigits n.
Proof.
  intros Hn. apply String.eqb_eq.
  apply (forall_range
           (fun k => String.eqb (padStart 2 "0" (numberToString k)) (twoDigits k)) 0 100);
    [vm_compute; reflexivity|lia].
Qed.

Section WithDateHost.
Context {dateHost : DateHost}.

Lemma formatDateToIso_normal (dateStr : string) :
  exists result, formatDateToIso dateStr = Normal result.
Proof.
  unfold formatDateToIso.
  destruct (negb (truthy dateStr) || negb (truthy (trim dateStr))); [eauto|].
  destruct (newDate (trim dateStr)) as [[|y m d]|e]; simpl; eauto.
Qed.

Lemma formatDateToIso_blank (dateStr : string) :
  truthy (trim dateStr) = false -> formatDateToIso dateStr = Normal dateStr.
Proof.
  intros Hb. unfold formatDateToIso. rewrite Hb, orb_true_r. reflexivity.
Qed.

Lemma formatDateToIso_unparsed (dateStr : string) :
  newDate (trim dateStr) = Normal InvalidDate \/
  (exists e, newDate (trim dateStr) = Throw e) ->
  formatDateToIso dateStr = Normal dateStr.
Proof.
  intros Hp. unfold formatDateToIso.
  destruct (negb (truthy dateStr) || negb (truthy (trim dateStr))); [reflexivity|].
  destruct Hp as [-> | [e ->]]; reflexivity.
Qed.

Lemma trim_truthy (s : string) : truthy (trim s) = true -> truthy s = true.
Proof. destruct s; [discriminate|reflexivity]. Qed.

Lemma formatDateToIso_parsed (dateStr : string) (year month day : Z) :
  truthy (trim dateStr) = true ->
  newDate (trim dateStr) = Normal (ValidDate year month day) ->
  formatDateToIso dateStr =
  Normal (numberToString year +:+ "-"
            +:+ padStart 2 "0" (numberToString (month + 1)) +:+ "-"
            +:+ padStart 2 "0" (numberToString day)).
Proof.
  intros Ht Hp. unfold formatDateToIso.
  rewrite Ht, (trim_truthy _ Ht), Hp. reflexivity.
Qed.

End WithDateHost.

End NormalizerFacts.

(** ** The cache *)

Module CacheFacts.

Lemma get_Some (cache : gmap string CacheEntry) (key : string) (now : Z)
    (history : list DividendHistory) :
  Cache.get cache key now = Some history <->
  exists entry, cache !! key = Some entry /\ (now < expiresAtMs entry)%Z /\
                data entry = history.
Proof.
  unfold Cache.get. split.
  - destruct (cache !! key) as [entry|]; [|discriminate].
    destruct (Z.gtb_spec (expiresAtMs entry) now); [|discriminate].
    intros [= <-]. exists entry. auto.
  - intros (entry & -> & Hlt & <-).
    destruct (Z.gtb_spec (expiresAtMs entry) now); [reflexivity|lia].
Qed.

Lemma get_put (cache : gmap string CacheEntry) (key : string)
    (history : list DividendHistory) (ttl now later : Z) :
  Cache.get (Cache.put cache key history ttl now) key later =
  if (now + ttl >? later)%Z then Some history else None.
Proof.
  unfold Cache.get, Cache.put. rewrite lookup_insert_eq. reflexivity.
Qed.

End CacheFacts.

(** ** The service *)

Module ServiceFacts.
Import Js Csv Merge Normalizer Service.

Ltac unfold_monad :=
  unfold mbind, M_bind, Completion_bind, mret, M_ret, Completion_ret,
    tryCatchM, throw, lift, getWorld, setCache.

Section WithHost.
Context {collator : Collator} {dateHost : DateHost} {runtime : Runtime}.

(** *** Extraction never throws *)

Lemma normalizedRecord_normal (ex cash rec pay : string) :
  exists d, normalizedRecord ex cash rec pay = Normal d.
Proof.
  unfold normalizedRecord. unfold_monad.
  destruct (NormalizerFacts.formatDateToIso_normal ex) as [? ->].
  destruct (NormalizerFacts.formatDateToIso_normal rec) as [? ->].
  destruct (NormalizerFacts.formatDateToIso_normal pay) as [? ->].
  eauto.
Qed.

Lemma primaryRow_normal (dividends : list DividendHistory) (cells : list string) :
  exists dividends', primaryRow dividends cells = Normal dividends'.
Proof.
  unfold primaryRow. destruct (4 <=? length cells)%nat; [|eauto].
  destruct (_ && _); [|eauto].
  destruct (normalizedRecord_normal (trim (nth 0 cells EmptyString))
              (trim (nth 1 cells EmptyString)) (trim (nth 2 cells EmptyString))
              (trim (nth 3 cells EmptyString))) as [d ->].
  unfold_monad. eauto.
Qed.

Lemma fallbackRow_normal (dividends : list DividendHistory) (cells : list string) :
  exists dividends', fallbackRow dividends cells = Normal dividends'.
Proof.
  unfold fallbackRow. destruct (4 <=? length cells)%nat; [|eauto].
  destruct (_ && _); [|eauto].
  destruct (normalizedRecord_normal (trim (nth 0 cells EmptyString))
              (trim (nth 1 cells EmptyString)) (trim (nth 2 cells EmptyString))
              (trim (nth 3 cells EmptyString))) as [d ->].
  unfold_monad. eauto.
Qed.

Lemma eachRow_normal
    (callback : list DividendHistory -> list string -> Completion (list DividendHistory))
    (rows : list (list string)) (dividends : list DividendHistory) :
  (forall ds cells, exists ds', callback ds cells = Normal ds') ->
  exists dividends', eachRow callback rows dividends = Normal dividends'.
Proof.
  intros Hcb. revert dividends.
  induction rows as [|cells rows IH]; intros dividends; simpl; [eexists; reflexivity|].
  destruct (Hcb dividends cells) as [ds' ->]. unfold_monad. apply IH.
Qed.

Lemma extract_cases (doc : Html) :
  (primaryRecords doc = Normal [] /\ extract doc = fallbackRecords doc) \/
  (exists d ds, primaryRecords doc = Normal (d :: ds) /\ extract doc = Normal (d :: ds)).
Proof.
  unfold extract, primaryRecords, fallbackRecords.
  destruct (eachRow_normal primaryRow (primaryRows doc) [] primaryRow_normal)
    as [[|d ds] ->]; unfold_monad; simpl; eauto.
Qed.

Lemma extract_normal (doc : Html) : exists dividends, extract doc = Normal dividends.
Proof.
  destruct (extract_cases doc) as [[_ ->] | (d & ds & _ & ->)]; [|eauto].
  apply eachRow_normal, fallbackRow_normal.
Qed.

(** *** The persisted history store *)

Lemma saveToCsv_run (ticker : string) (dividends : list DividendHistory)
    (outputDir : option string) (w : World) :
  saveToCsv ticker dividends outputDir w =
  (Normal tt, mkWorld (cache w) (filesAfterSave ticker dividends outputDir (files w))).
Proof.
  unfold saveToCsv, filesAfterSave, mkdir, writeFile. unfold_monad.
  destruct (diskRejects (baseDir outputDir)); simpl; [destruct w; reflexivity|].
  destruct (diskRejects (csvPath ticker outputDir)); simpl; [destruct w|]; reflexivity.
Qed.

Lemma csvExists_run (ticker : string) (outputDir : option string) (w : World) :
  csvExists ticker outputDir w =
  (Normal (match files w !! csvPath ticker outputDir with
           | Some _ => true
           | None => false
           end), w).
Proof.
  unfold csvExists, access. unfold_monad.
  destruct (files w !! csvPath ticker outputDir); reflexivity.
Qed.

Lemma readExistingCsv_run (ticker : string) (outputDir : option string) (w : World) :
  readExistingCsv ticker outputDir w =
  (Normal (match files w !! csvPath ticker outputDir with
           | Some content => readCsvContent content
           | None => []
           end), w).
Proof.
  unfold readExistingCsv, readFile. unfold_monad.
  destruct (files w !! csvPath ticker outputDir); reflexivity.
Qed.

(** *** The single-ticker pipeline *)

Lemma getDividendHistory_hit (now : Z) (ticker : string) (outputDir : option string)
    (w : World) (cachedData : list DividendHistory) :
  truthy ticker = true ->
  Cache.get (cache w) (toUpperCase ticker) now = Some cachedData ->
  getDividendHistory now ticker outputDir w =
  (Normal cachedData,
   if given outputDir
   then mkWorld (cache w)
          (filesAfterSave (toUpperCase ticker) cachedData outputDir (files w))
   else w).
Proof.
  intros Ht Hc. unfold getDividendHistory. rewrite Ht. unfold_monad. simpl.
  rewrite Hc. destruct (given outputDir); [|reflexivity].
  rewrite saveToCsv_run. reflexivity.
Qed.

Lemma getDividendHistory_miss (now : Z) (ticker : string) (outputDir : option string)
    (w : World) :
  truthy ticker = true ->
  Cache.get (cache w) (toUpperCase ticker) now = None ->
  getDividendHistory now ticker outputDir w =
  match httpGet now (harvestUrl ticker) with
  | Rejected status message =>
      (Throw (if decide (status = Some 404%Z)
              then BadRequestException (notFoundMessage ticker)
              else InternalServerErrorException
                     (orElse message
                        "Failed to fetch dividend history from stockanalysis.com")), w)
  | Response doc =>
      match extract doc with
      | Normal [] =>
          (Throw (InternalServerErrorException
                    "Could not find dividend history table on the page"), w)
      | Normal (d :: ds) =>
          let final := finalDividends ticker outputDir (d :: ds) w in
          (Normal final,
           mkWorld
             (Cache.put (cache w) (toUpperCase ticker) final Cache.defaultTtlMs now)
             (filesAfterSave (toUpperCase ticker) final outputDir (files w)))
      | Throw e => (Throw e, w)
      end
  end.
Proof.
  intros Ht Hc. unfold getDividendHistory. rewrite Ht. unfold_monad. simpl.
  rewrite Hc. unfold axiosGet. fold (harvestUrl ticker).
  destruct (httpGet now (harvestUrl ticker)) as [doc|status message].
  - destruct (extract_normal doc) as [[|d ds] ->]; [reflexivity|].
    cbn [length Nat.eqb]. rewrite csvExists_run. unfold finalDividends.
    destruct (files w !! csvPath (toUpperCase ticker) outputDir) as [content|] eqn:E.
    + rewrite readExistingCsv_run, E, saveToCsv_run. reflexivity.
    + rewrite saveToCsv_run. reflexivity.
  - destruct (decide (status = Some 404%Z)); reflexivity.
Qed.

(** *** The batch orchestrator *)

Lemma readTickersFromCsv_world (csvFilePath : string) (w w' : World)
    (r : Completion (list string)) :
  readTickersFromCsv csvFilePath w = (r, w') -> w' = w.
Proof.
  unfold readTickersFromCsv, readFile. unfold_monad.
  destruct (files w !! pathJoin [cwd; csvFilePath]) as [content|]; simpl.
  - destruct (length _ <? 2)%nat; intros [= _ <-]; reflexivity.
  - intros [= _ <-]. reflexivity.
Qed.

Lemma processLoop_run (clock : nat -> Z) (k : nat) (outputDir : string)
    (tickers : list string) (results : list BatchOutcome) (w : World) :
  processLoop clock k outputDir tickers results w =
  (Normal (results ++ batchOutcomes clock k outputDir tickers w),
   worldAfter clock k outputDir tickers w).
Proof.
  revert k results w.
  induction tickers as [|t rest IH]; intros k results w; simpl.
  - unfold_monad. rewrite List.app_nil_r. reflexivity.
  - unfold_monad.
    destruct (getDividendHistory (clock k) t (Some outputDir) w) as [[v|e] w1];
      simpl; rewrite IH, <- List.app_assoc; reflexivity.
Qed.

Lemma batchOutcomes_tickers (clock : nat -> Z) (k : nat) (outputDir : string)
    (tickers : list string) (w : World) :
  map Service.ticker (batchOutcomes clock k outputDir tickers w) = tickers.
Proof.
  revert k w. induction tickers as [|t rest IH]; intros k w; simpl; [reflexivity|].
  rewrite IH. destruct (getDividendHistory (clock k) t (Some outputDir) w).1; reflexivity.
Qed.

Lemma batchOutcomes_lookup (clock : nat -> Z) (k : nat) (outputDir : string)
    (tickers : list string) (w : World) (i : nat) (t : string) :
  tickers !! i = Some t ->
  batchOutcomes clock k outputDir tickers w !! i =
  Some (outcomeOf t
          (getDividendHistory (clock (k + i)%nat) t (Some outputDir)
             (worldAfter clock k outputDir (take i tickers) w)).1).
Proof.
  revert k w i. induction tickers as [|t' rest IH]; intros k w i Hi; [discriminate|].
  destruct i as [|i]; simpl in *.
  - injection Hi as ->. rewrite Nat.add_0_r. reflexivity.
  - rewrite (IH _ _ _ Hi). replace (S k + i)%nat with (k + S i)%nat by lia. reflexivity.
Qed.

Lemma orElse_truthy (value fallback : string) :
  fallback <> EmptyString -> orElse value fallback <> EmptyString.
Proof. unfold orElse. destruct value; simpl; [auto|discriminate]. Qed.

End WithHost.

End ServiceFacts.

(* ================================================================= *)
(** * Further properties of the code *)

Module More.
Import Js Csv Merge Normalizer Service.
Import JsFacts CsvFacts MergeFacts NormalizerFacts CacheFacts ServiceFacts.

(** ** The decoder *)

(** X1. Whatever the text, every field of every record the decoder
    returns is free of double quotes and newlines and has no white
    space at either end. *)
Theorem X1_decoded_fields_clean (content : string) (d : DividendHistory) :
  In d (readCsvContent content) ->
  cleanField (exDividendDate d) /\ cleanField (cashAmount d) /\
  cleanField (recordDate d) /\ cleanField (payDate d).
Proof.
  intros Hin. pose proof (readCsvContent_clean content) as Hall.
  rewrite List.Forall_forall in Hall. exact (Hall d Hin).
Qed.

(** X2. A record is read back from its own encoding exactly when its
    fields hold no double quote and no newline, have no white space at
    either end, and its pay date is not empty. *)
Theorem X2_round_trip_iff_preserved (d : DividendHistory) :
  readCsvContent (csvContent [d]) = [d] <-> preserved d.
Proof.
  split; [apply round_trip_only_preserved|].
  intros Hd. apply readCsvContent_preserved. constructor; [exact Hd|constructor].
Qed.

Lemma lines_app (a b : string) :
  List.filter nonblank (split newline (a +:+ String newline b)) =
  List.filter nonblank (split newline a) ++ List.filter nonblank (split newline b).
Proof. rewrite split_app. apply List.filter_app. Qed.

Lemma readCsvContent_lines (content : string) :
  readCsvContent content =
  flat_map (readLine []) (tail (List.filter nonblank (split newline content))).
Proof.
  unfold readCsvContent. fold nonblank.
  destruct (List.filter nonblank (split newline content)) as [|l [|l' ls]];
    [reflexivity..|].
  change ((length (l :: l' :: ls) <? 2)%nat) with false. cbv iota.
  rewrite fold_readLine. reflexivity.
Qed.

(** X3. The first line is dropped without being looked at: two texts
    that differ in their first line only decode alike. *)
Theorem X3_header_not_validated (header1 header2 body : string) :
  includes newline header1 = false -> includes newline header2 = false ->
  nonblank header1 = true -> nonblank header2 = true ->
  readCsvContent (header1 +:+ String newline body) =
  readCsvContent (header2 +:+ String newline body).
Proof.
  intros N1 N2 B1 B2. rewrite !readCsvContent_lines, !lines_app.
  rewrite (split_none _ _ N1), (split_none _ _ N2).
  cbn [List.filter]. rewrite B1, B2. reflexivity.
Qed.

(** X4. Blank lines do not count: a line of white space between two
    parts of a text, or after the last line, changes nothing. *)
Theorem X4_blank_lines_ignored (before blank after : string) :
  includes newline blank = false -> nonblank blank = false ->
  readCsvContent (before +:+ String newline (blank +:+ String newline after)) =
    readCsvContent (before +:+ String newline after) /\
  readCsvContent (before +:+ String newline blank) = readCsvContent before.
Proof.
  intros Hn Hb. rewrite !readCsvContent_lines, !lines_app.
  rewrite (split_none _ _ Hn). cbn [List.filter]. rewrite Hb.
  split; [reflexivity|]. rewrite List.app_nil_r. reflexivity.
Qed.

Lemma trimEnd_snoc_space (s : string) (c : ascii) :
  isWhiteSpace c = true -> trimEnd (s +:+ String c EmptyString) = trimEnd s.
Proof.
  intros Hc. induction s as [|x s IH].
  - rewrite app_nil_l. simpl. rewrite Hc. reflexivity.
  - rewrite app_cons. simpl. rewrite IH. reflexivity.
Qed.

Lemma trimStart_snoc_space (s : string) (c : ascii) :
  isWhiteSpace c = true ->
  trimStart (s +:+ String c EmptyString) =
  if truthy (trimStart s) then trimStart s +:+ String c EmptyString else EmptyString.
Proof.
  intros Hc. induction s as [|x s IH].
  - rewrite app_nil_l. simpl. rewrite Hc. reflexivity.
  - rewrite app_cons. simpl. destruct (isWhiteSpace x); [exact IH|reflexivity].
Qed.

Lemma trim_snoc_space (s : string) (c : ascii) :
  isWhiteSpace c = true -> trim (s +:+ String c EmptyString) = trim s.
Proof.
  intros Hc. unfold trim. rewrite (trimStart_snoc_space s c Hc).
  destruct (trimStart s); [reflexivity|]. cbn [truthy].
  apply trimEnd_snoc_space, Hc.
Qed.

Lemma concat_split_none (lines : list string) :
  Forall (fun l => includes newline l = false) lines ->
  List.concat (map (split newline) lines) = lines.
Proof.
  induction 1 as [|l lines Hl _ IH]; [reflexivity|].
  cbn [map List.concat]. rewrite (split_none _ _ Hl), IH. reflexivity.
Qed.

(** X5. Lines may end with a carriage return: a text whose lines all
    carry one decodes like the text without them. *)
Theorem X5_carriage_returns_ignored (lines : list string) :
  Forall (fun l => includes newline l = false) lines ->
  readCsvContent
    (join (String newline EmptyString)
       (map (fun l => l +:+ String "013"%char EmptyString) lines)) =
  readCsvContent (join (String newline EmptyString) lines).
Proof.
  intros Hlines. destruct lines as [|l0 lines]; [reflexivity|].
  set (cr := fun l => l +:+ String "013"%char EmptyString).
  rewrite !readCsvContent_lines, !split_join by discriminate.
  rewrite (concat_split_none _ Hlines), concat_split_none.
  2:{ apply List.Forall_map. revert Hlines. apply List.Forall_impl.
      intros l Hl. unfold cr. rewrite includes_app, Hl. reflexivity. }
  assert (forall l, nonblank (cr l) = nonblank l) as Hnb.
  { intros l. unfold nonblank, cr. rewrite trim_snoc_space; reflexivity. }
  assert (forall l, readLine [] (cr l) = readLine [] l) as Hrl.
  { intros l. unfold readLine, cr. rewrite trim_snoc_space; reflexivity. }
  assert (forall ls, List.filter nonblank (map cr ls) = map cr (List.filter nonblank ls))
    as Hf.
  { induction ls as [|l ls IH]; [reflexivity|]. cbn [map List.filter].
    rewrite Hnb, IH. destruct (nonblank l); reflexivity. }
  rewrite Hf. generalize (List.filter nonblank (l0 :: lines)). intros kept.
  destruct kept as [|k kept]; [reflexivity|]. cbn [map tail].
  induction kept as [|l ls IH]; [reflexivity|].
  cbn [map flat_map]. rewrite Hrl, IH. reflexivity.
Qed.

(** ** The tokenizer *)

Lemma last_cons_split (p : string) (rest : string) :
  List.last (p :: split comma rest) EmptyString =
  List.last (split comma rest) EmptyString.
Proof.
  pose proof (split_nonempty comma rest).
  destruct (split comma rest); [contradiction|reflexivity].
Qed.

Lemma dropEmptyLast_cons_split (p : string) (rest : string) :
  dropEmptyLast (p :: split comma rest) = p :: dropEmptyLast (split comma rest).
Proof.
  unfold dropEmptyLast. rewrite last_cons_split.
  destruct (truthy _); [reflexivity|].
  pose proof (split_nonempty comma rest).
  destruct (split comma rest); [contradiction|reflexivity].
Qed.

Lemma parseCsvLoop_split (line : string) (values : list string) (current : string) :
  includes dquote line = false ->
  parseCsvLoop line values current false =
  values ++ map trim
    (dropEmptyLast
       (match split comma line with
        | piece :: pieces => (current +:+ piece) :: pieces
        | [] => [current]
        end)).
Proof.
  revert values current. induction line as [|c line IH]; intros values current Hq.
  - simpl. rewrite app_nil_r. unfold dropEmptyLast. simpl.
    destruct (truthy current); [reflexivity|]. symmetry. apply List.app_nil_r.
  - simpl in Hq. apply orb_false_elim in Hq as [Hc Hq].
    cbn [parseCsvLoop split]. rewrite Hc. cbn [negb]. rewrite andb_true_r.
    destruct (Ascii.eqb c comma) eqn:Ec.
    + rewrite (IH _ _ Hq), app_nil_r, dropEmptyLast_cons_split.
      pose proof (split_nonempty comma line).
      destruct (split comma line) as [|p ps]; [contradiction|].
      cbn [map]. rewrite app_nil_l, <- List.app_assoc. reflexivity.
    + rewrite (IH _ _ Hq).
      pose proof (split_nonempty comma line).
      destruct (split comma line) as [|p ps]; [contradiction|].
      rewrite app_assoc, app_cons, app_nil_l. reflexivity.
Qed.

(** X6. On a line without double quotes the tokenizer is a split at the
    commas, each piece trimmed, except that an empty piece after the
    last comma, or the only piece of an empty line, gives no token. *)
Theorem X6_tokens_of_unquoted_line (line : string) :
  includes dquote line = false ->
  parseCsvLine line = map trim (dropEmptyLast (split comma line)).
Proof.
  intros Hq. unfold parseCsvLine. rewrite (parseCsvLoop_split line [] EmptyString Hq).
  pose proof (split_nonempty comma line).
  destruct (split comma line); [contradiction|]. rewrite app_nil_l. reflexivity.
Qed.

(** ** The merge *)

Section MergeMore.
Context {collator : Collator}.

(** X7. The merge is append-only: its records are the existing ones
    and the harvested ones it admits (all of them when nothing exists,
    else those dated after the first existing record), nothing else
    and none of them lost. *)
Theorem X7_merge_append_only (existing harvested : list DividendHistory) :
  (forall d, In d (mergeDividends existing harvested) <->
             In d existing \/ In d (newerEntries existing harvested)) /\
  (forall first rest d,
      existing = first :: rest ->
      In d (newerEntries existing harvested) <->
      In d harvested /\ gtb (exDividendDate d) (exDividendDate first) = true) /\
  length (mergeDividends existing harvested) =
  (length (newerEntries existing harvested) + length existing)%nat.
Proof.
  pose proof (mergeDividends_perm existing harvested) as Hp.
  split; [|split].
  - intros d. split.
    + intros Hin. apply (Permutation_in _ (Permutation_sym Hp)) in Hin.
      apply List.in_app_or in Hin. tauto.
    + intros Hin. apply (Permutation_in _ Hp). apply List.in_or_app. tauto.
  - intros first rest d ->. cbn [newerEntries]. apply List.filter_In.
  - rewrite <- (Permutation_length Hp). apply List.length_app.
Qed.

Lemma mergeDividends_sorted (existing harvested : list DividendHistory) :
  Sorted (inOrder byDateDesc) (mergeDividends existing harvested).
Proof.
  destruct existing; apply (arraySort_sorted byDateDesc byDateDesc_total).
Qed.

Lemma localeCompare_refl_le (a : string) : (localeCompare a a <= 0)%Z.
Proof.
  destruct (Z.le_gt_cases (localeCompare a a) 0) as [?|Hpos]; [assumption|].
  pose proof (proj1 (localeCompare_antisym a a) Hpos). lia.
Qed.

Lemma sorted_head_newest (first : DividendHistory) (rest : list DividendHistory) :
  Sorted (inOrder byDateDesc) (first :: rest) ->
  forall x, In x (first :: rest) ->
            (localeCompare (exDividendDate x) (exDividendDate first) <= 0)%Z.
Proof.
  intros Hs x Hx.
  apply Sorted_StronglySorted in Hs;
    [|intros a b c; unfold inOrder; apply byDateDesc_trans].
  apply StronglySorted_inv in Hs as [_ Hall]. rewrite List.Forall_forall in Hall.
  destruct Hx as [<- | Hx]; [apply localeCompare_refl_le|exact (Hall x Hx)].
Qed.

Lemma filter_none {A : Type} (f : A -> bool) (l : list A) :
  (forall x, In x l -> f x = false) -> List.filter f l = [].
Proof.
  induction l as [|x l IH]; intros Hall; [reflexivity|]. simpl.
  rewrite (Hall x (or_introl eq_refl)). apply IH. intros y Hy. apply Hall. right. exact Hy.
Qed.

Lemma leb_trans (a b c : string) :
  String.leb a b = true -> String.leb b c = true -> String.leb a c = true.
Proof.
  intros Hab Hbc.
  assert (String.le a c) as Hac.
  { transitivity b; unfold String.le; [rewrite Hab|rewrite Hbc]; exact I. }
  unfold String.le in Hac. destruct (String.leb a c); [reflexivity|contradiction].
Qed.

(** X8. Harvesting the same page again adds nothing: when the collation
    orders the dates at hand as their code units do, merging a harvest
    into the result of merging it gives that result back. *)
Theorem X8_merge_same_harvest_again (existing harvested : list DividendHistory) :
  (forall a b,
      In a (map exDividendDate (existing ++ harvested)) ->
      In b (map exDividendDate (existing ++ harvested)) ->
      ((localeCompare a b <= 0)%Z <-> String.leb a b = true)) ->
  mergeDividends (mergeDividends existing harvested) harvested =
  mergeDividends existing harvested.
Proof.
  intros Hagree.
  pose proof (mergeDividends_perm existing harvested) as Hp.
  pose proof (mergeDividends_sorted existing harvested) as Hs.
  assert (forall x, In x (mergeDividends existing harvested) ->
                    In x existing \/ In x harvested) as Hfrom.
  { intros x Hx. apply (Permutation_in _ (Permutation_sym Hp)) in Hx.
    apply List.in_app_or in Hx as [Hx | Hx]; [|left; exact Hx].
    right. destruct existing; [exact Hx|]. cbn [newerEntries] in Hx.
    apply List.filter_In in Hx. tauto. }
  assert (forall x, In x existing \/ In x harvested ->
                    In (exDividendDate x) (map exDividendDate (existing ++ harvested)))
    as Hdate.
  { intros x Hx. apply List.in_map, List.in_or_app. exact Hx. }
  destruct (mergeDividends existing harvested) as [|r0 rs] eqn:ER.
  - apply Permutation_sym, Permutation_nil, List.app_eq_nil in Hp as [Hn He].
    subst existing. cbn [newerEntries] in Hn. subst harvested. reflexivity.
  - unfold mergeDividends at 1.
    assert (forall x, In x (r0 :: rs) ->
                      String.leb (exDividendDate x) (exDividendDate r0) = true) as Hmax.
    { intros x Hx. apply Hagree.
      - apply Hdate, Hfrom, Hx.
      - apply Hdate, Hfrom. left. reflexivity.
      - exact (sorted_head_newest r0 rs Hs x Hx). }
    rewrite filter_none.
    + cbn [app]. apply (arraySort_sorted_id byDateDesc). exact Hs.
    + intros h Hh. rewrite gtb_leb. apply negb_false_iff.
      destruct (List.in_dec
                  (fun a b : DividendHistory =>
                     ltac:(decide equality; apply string_dec) : {a = b} + {a <> b})
                  h (newerEntries existing harvested)) as [Hnew | Hold].
      * apply Hmax, (Permutation_in _ Hp), List.in_or_app. left. exact Hnew.
      * destruct existing as [|e0 es]; [contradiction|].
        cbn [newerEntries] in Hold.
        assert (gtb (exDividendDate h) (exDividendDate e0) = false) as Hle.
        { destruct (gtb (exDividendDate h) (exDividendDate e0)) eqn:E; [|reflexivity].
          exfalso. apply Hold, List.filter_In. split; assumption. }
        rewrite gtb_leb in Hle. apply negb_false_iff in Hle.
        apply (leb_trans _ _ _ Hle). apply Hmax, (Permutation_in _ Hp).
        apply List.in_or_app. right. left. reflexivity.
Qed.

End MergeMore.

(** ** The cache *)

(** X9. After a store at time [now] with a time to live [ttl], the key
    is found at time [t] exactly when [t < now + ttl], with the stored
    history; the other keys are found as before. *)
Theorem X9_cache_store_then_lookup (cache : gmap string CacheEntry)
    (key other : string) (history : list DividendHistory) (ttl now t : Z) :
  (Cache.get (Cache.put cache key history ttl now) key t = Some history <->
   (t < now + ttl)%Z) /\
  (Cache.get (Cache.put cache key history ttl now) key t = None <->
   (now + ttl <= t)%Z) /\
  (other <> key ->
   Cache.get (Cache.put cache key history ttl now) other t = Cache.get cache other t).
Proof.
  rewrite get_put. destruct (Z.gtb_spec (now + ttl) t).
  - split; [split; [lia|reflexivity]|]. split; [split; [discriminate|lia]|].
    intros Hne. unfold Cache.get, Cache.put. rewrite lookup_insert_ne by congruence.
    reflexivity.
  - split; [split; [discriminate|lia]|]. split; [split; [lia|reflexivity]|].
    intros Hne. unfold Cache.get, Cache.put. rewrite lookup_insert_ne by congruence.
    reflexivity.
Qed.

(** X10. Expiry only goes one way: what is found at a time is found at
    every earlier time, what is missed is missed at every later time. *)
Theorem X10_cache_expiry_monotone (cache : gmap string CacheEntry) (key : string)
    (earlier later : Z) :
  (earlier <= later)%Z ->
  (forall history, Cache.get cache key later = Some history ->
                   Cache.get cache key earlier = Some history) /\
  (Cache.get cache key earlier = None -> Cache.get cache key later = None).
Proof.
  intros Hle. unfold Cache.get. destruct (cache !! key) as [entry|]; [|split; auto].
  destruct (Z.gtb_spec (expiresAtMs entry) later),
           (Z.gtb_spec (expiresAtMs entry) earlier);
    split; try discriminate; auto; lia.
Qed.

(** ** The single-ticker pipeline *)

Section PipelineMore.
Context {collator : Collator} {dateHost : DateHost} {runtime : Runtime}.

(** X11. A request that throws changes nothing: neither the cache nor
    any file. *)
Theorem X11_failed_request_changes_nothing (now : Z) (t : string)
    (outputDir : option string) (w : World) (e : JsError) :
  (getDividendHistory now t outputDir w).1 = Throw e ->
  (getDividendHistory now t outputDir w).2 = w.
Proof.
  destruct (truthy t) eqn:Ht.
  - destruct (Cache.get (cache w) (toUpperCase t) now) as [cached|] eqn:Hc.
    + rewrite (getDividendHistory_hit now t outputDir w cached Ht Hc). discriminate.
    + rewrite (getDividendHistory_miss now t outputDir w Ht Hc).
      destruct (httpGet now (harvestUrl t)) as [doc|status message];
        [|reflexivity].
      destruct (extract doc) as [[|d ds]|e']; [reflexivity|discriminate|reflexivity].
  - unfold getDividendHistory. rewrite Ht. reflexivity.
Qed.

Lemma finalDividends_descending (t : string) (outputDir : option string)
    (dividends : list DividendHistory) (w : World) :
  descending (finalDividends t outputDir dividends w).
Proof.
  unfold finalDividends.
  destruct (files w !! csvPath (toUpperCase t) outputDir).
  - apply mergeDividends_sorted.
  - apply (arraySort_sorted byDateDesc byDateDesc_total).
Qed.

Lemma finalDividends_nonempty (t : string) (outputDir : option string)
    (d : DividendHistory) (ds : list DividendHistory) (w : World) :
  finalDividends t outputDir (d :: ds) w <> [].
Proof.
  unfold finalDividends. intros Hnil.
  destruct (files w !! csvPath (toUpperCase t) outputDir) as [content|].
  - pose proof (mergeDividends_perm (readCsvContent content) (d :: ds)) as Hp.
    rewrite Hnil in Hp.
    apply Permutation_sym, Permutation_nil, List.app_eq_nil in Hp as [Hn He].
    rewrite He in Hn. discriminate.
  - pose proof (arraySort_perm byDateDesc (d :: ds)) as Hp. rewrite Hnil in Hp.
    apply Permutation_sym, Permutation_nil in Hp. discriminate.
Qed.

(** X12. A request that misses the cache and returns, returns a
    non-empty history in descending order, stores it in the cache under
    the upper-cased ticker until one hour after the request, and leaves
    the files as [saveToCsv] of that history leaves them: the ticker's
    file rewritten when the disk accepts it, no file changed when it
    does not. *)
Theorem X12_harvest_postcondition (now : Z) (t : string)
    (outputDir : option string) (w : World) (history : list DividendHistory) :
  truthy t = true ->
  Cache.get (cache w) (toUpperCase t) now = None ->
  (getDividendHistory now t outputDir w).1 = Normal history ->
  let w' := (getDividendHistory now t outputDir w).2 in
  let filePath := csvPath (toUpperCase t) outputDir in
  history <> [] /\
  descending history /\
  cache w' = <[toUpperCase t := mkCacheEntry (now + 3600000) history]> (cache w) /\
  (diskRejects (baseDir outputDir) = false -> diskRejects filePath = false ->
   files w' = <[filePath := csvContent history]> (files w)) /\
  (diskRejects (baseDir outputDir) = true \/ diskRejects filePath = true ->
   files w' = files w).
Proof.
  intros Ht Hc. rewrite (getDividendHistory_miss now t outputDir w Ht Hc).
  destruct (httpGet now (harvestUrl t)) as [doc|status message]; [|discriminate].
  destruct (extract doc) as [[|d ds]|e']; [discriminate| |discriminate].
  cbn [fst snd]. intros [= <-]. cbn [cache files]. unfold filesAfterSave.
  split; [apply finalDividends_nonempty|].
  split; [apply finalDividends_descending|].
  split; [reflexivity|].
  split.
  - intros -> ->. reflexivity.
  - intros [-> | ->]; [reflexivity|]. rewrite orb_true_r. reflexivity.
Qed.

Lemma filesAfterSave_twice (t : string) (dividends : list DividendHistory)
    (outputDir : option string) (fs : gmap string string) :
  filesAfterSave t dividends outputDir (filesAfterSave t dividends outputDir fs) =
  filesAfterSave t dividends outputDir fs.
Proof.
  unfold filesAfterSave. destruct (_ || _); [reflexivity|]. apply insert_insert_eq.
Qed.

(** X13. After a request that missed the cache and returned, the same
    request made before the hour is over returns the same history
    whatever the upstream now serves, and leaves the cache and the
    files as the first request left them. *)
Theorem X13_repeated_request_served_from_cache (now later : Z) (t : string)
    (outputDir : option string) (w : World) (history : list DividendHistory) :
  truthy t = true ->
  Cache.get (cache w) (toUpperCase t) now = None ->
  (getDividendHistory now t outputDir w).1 = Normal history ->
  (later < now + 3600000)%Z ->
  getDividendHistory later t outputDir (getDividendHistory now t outputDir w).2 =
  (Normal history, (getDividendHistory now t outputDir w).2).
Proof.
  intros Ht Hc Hres Hlater.
  rewrite (getDividendHistory_miss now t outputDir w Ht Hc) in *.
  destruct (httpGet now (harvestUrl t)) as [doc|status message]; [|discriminate].
  destruct (extract doc) as [[|d ds]|e']; [discriminate| |discriminate].
  cbn [fst snd] in *. injection Hres as Hres. rewrite Hres.
  rewrite (getDividendHistory_hit later t outputDir _ history Ht).
  - cbn [cache files]. rewrite filesAfterSave_twice.
    destruct (given outputDir); reflexivity.
  - cbn [cache]. rewrite get_put. unfold Cache.defaultTtlMs.
    destruct (Z.gtb_spec (now + 60 * 60 * 1000) later); [reflexivity|lia].
Qed.

(** X14. What was on disk stays: every record the decoder reads from
    the ticker's existing file is in the history a request that misses
    the cache returns. *)
Theorem X14_harvest_keeps_records_on_disk (now : Z) (t : string)
    (outputDir : option string) (w : World) (history : list DividendHistory)
    (content : string) (d : DividendHistory) :
  truthy t = true ->
  Cache.get (cache w) (toUpperCase t) now = None ->
  (getDividendHistory now t outputDir w).1 = Normal history ->
  files w !! csvPath (toUpperCase t) outputDir = Some content ->
  In d (readCsvContent content) ->
  In d history.
Proof.
  intros Ht Hc Hres Hfile Hd.
  rewrite (getDividendHistory_miss now t outputDir w Ht Hc) in Hres.
  destruct (httpGet now (harvestUrl t)) as [doc|status message]; [|discriminate].
  destruct (extract doc) as [[|x xs]|e']; [discriminate| |discriminate].
  cbn [fst] in Hres. injection Hres as <-. unfold finalDividends. rewrite Hfile.
  apply (Permutation_in _ (mergeDividends_perm _ _)), List.in_or_app. right. exact Hd.
Qed.

(** *** Extraction *)

Lemma truthy_app_r (a b : string) : truthy b = true -> truthy (a +:+ b) = true.
Proof. intros Hb. destruct a; [exact Hb|reflexivity]. Qed.

Lemma formatDateToIso_truthy (dateStr result : string) :
  truthy dateStr = true -> formatDateToIso dateStr = Normal result ->
  truthy result = true.
Proof.
  intros Ht. unfold formatDateToIso.
  destruct (negb (truthy dateStr) || negb (truthy (trim dateStr)));
    [intros [= <-]; exact Ht|].
  destruct (newDate (trim dateStr)) as [[|y m d]|e]; simpl.
  - intros [= <-]. exact Ht.
  - intros [= <-]. apply truthy_app_r. reflexivity.
  - intros [= <-]. exact Ht.
Qed.

Lemma truthy_nonempty (s : string) : truthy s = true -> s <> EmptyString.
Proof. destruct s; [discriminate|discriminate]. Qed.

Lemma normalizedRecord_kept (ex cash rec pay : string) (d : DividendHistory) :
  truthy ex = true -> truthy cash = true -> trim cash = cash ->
  normalizedRecord ex cash rec pay = Normal d -> kept d.
Proof.
  intros Hex Hcash Htrim. unfold normalizedRecord. unfold_monad.
  destruct (formatDateToIso ex) as [ex'|] eqn:E1; [|discriminate].
  destruct (formatDateToIso rec) as [rec'|]; [|discriminate].
  destruct (formatDateToIso pay) as [pay'|]; [|discriminate].
  intros [= <-]. repeat split; cbn.
  - apply truthy_nonempty, (formatDateToIso_truthy ex ex' Hex E1).
  - apply truthy_nonempty, Hcash.
  - exact Htrim.
Qed.

Lemma test_truthy (r : Regex.re) (s : string) :
  Regex.test r EmptyString = false -> Regex.test r s = true -> truthy s = true.
Proof. intros Hempty Hs. destruct s; [congruence|reflexivity]. Qed.

Lemma primaryRow_kept (dividends dividends' : list DividendHistory) (cells : list string) :
  Forall kept dividends -> primaryRow dividends cells = Normal dividends' ->
  Forall kept dividends'.
Proof.
  intros Hall. unfold primaryRow.
  destruct (4 <=? length cells)%nat; [|intros [= <-]; exact Hall].
  destruct (truthy (trim (nth 0 cells EmptyString))) eqn:Hex;
    [|intros [= <-]; exact Hall].
  destruct (truthy (trim (nth 1 cells EmptyString))) eqn:Hcash;
    [|intros [= <-]; exact Hall].
  cbn [andb]. unfold_monad.
  destruct (normalizedRecord _ _ _ _) as [d|] eqn:E; [|discriminate].
  intros [= <-]. apply List.Forall_app. split; [exact Hall|].
  constructor; [|constructor].
  exact (normalizedRecord_kept _ _ _ _ d Hex Hcash (trim_idem _) E).
Qed.

Lemma fallbackRow_kept (dividends dividends' : list DividendHistory) (cells : list string) :
  Forall kept dividends -> fallbackRow dividends cells = Normal dividends' ->
  Forall kept dividends'.
Proof.
  intros Hall. unfold fallbackRow.
  destruct (4 <=? length cells)%nat; [|intros [= <-]; exact Hall].
  destruct (Regex.test Regex.datePattern (trim (nth 0 cells EmptyString))) eqn:Hex;
    [|intros [= <-]; exact Hall].
  destruct (Regex.test Regex.amountPattern (trim (nth 1 cells EmptyString))) eqn:Hcash;
    [|intros [= <-]; exact Hall].
  cbn [andb]. unfold_monad.
  destruct (normalizedRecord _ _ _ _) as [d|] eqn:E; [|discriminate].
  intros [= <-]. apply List.Forall_app. split; [exact Hall|].
  constructor; [|constructor].
  apply (normalizedRecord_kept _ _ _ _ d) with (4 := E); [| |apply trim_idem].
  - exact (test_truthy Regex.datePattern _ eq_refl Hex).
  - exact (test_truthy Regex.amountPattern _ eq_refl Hcash).
Qed.

Lemma eachRow_kept
    (callback : list DividendHistory -> list string -> Completion (list DividendHistory))
    (rows : list (list string)) (dividends dividends' : list DividendHistory) :
  (forall ds ds' cells, Forall kept ds -> callback ds cells = Normal ds' ->
                        Forall kept ds') ->
  Forall kept dividends -> eachRow callback rows dividends = Normal dividends' ->
  Forall kept dividends'.
Proof.
  intros Hcb. revert dividends.
  induction rows as [|cells rows IH]; intros dividends Hall; simpl.
  - intros [= <-]. exact Hall.
  - unfold_monad. destruct (callback dividends cells) as [ds|] eqn:E; [|discriminate].
    apply IH. exact (Hcb _ _ _ Hall E).
Qed.

(** X15. Every record either extraction strategy yields has a non-empty
    ex-dividend date and a non-empty cash amount without white space
    around it. *)
Theorem X15_extracted_records_have_date_and_amount (doc : Html)
    (dividends : list DividendHistory) (d : DividendHistory) :
  extract doc = Normal dividends -> In d dividends ->
  exDividendDate d <> EmptyString /\ cashAmount d <> EmptyString /\
  trim (cashAmount d) = cashAmount d.
Proof.
  intros Hx Hd.
  assert (Forall kept dividends) as Hall.
  { unfold extract in Hx. revert Hx. unfold mbind at 1. unfold Completion_bind.
    destruct (eachRow primaryRow (primaryRows doc) []) as [ds|] eqn:E; [|discriminate].
    pose proof (eachRow_kept primaryRow _ _ _ primaryRow_kept (List.Forall_nil kept) E) as Hp.
    destruct (length ds =? 0)%nat.
    - intros Hf. exact (eachRow_kept fallbackRow _ _ _ fallbackRow_kept Hp Hf).
    - intros [= <-]. exact Hp. }
  rewrite List.Forall_forall in Hall. exact (Hall d Hd).
Qed.

Lemma rows_agree (rows : list (list string)) (dividends : list DividendHistory) :
  (forall cells, In cells rows ->
                 truthy (trim (nth 0 cells EmptyString)) = true ->
                 truthy (trim (nth 1 cells EmptyString)) = true ->
                 Regex.test Regex.datePattern (trim (nth 0 cells EmptyString)) = true /\
                 Regex.test Regex.amountPattern (trim (nth 1 cells EmptyString)) = true) ->
  eachRow fallbackRow rows dividends = eachRow primaryRow rows dividends.
Proof.
  revert dividends. induction rows as [|cells rows IH]; intros dividends Hrows;
    [reflexivity|].
  cbn [eachRow].
  assert (fallbackRow dividends cells = primaryRow dividends cells) as ->.
  { unfold fallbackRow, primaryRow. destruct (4 <=? length cells)%nat; [|reflexivity].
    destruct (Regex.test Regex.datePattern (trim (nth 0 cells EmptyString))) eqn:Hd,
             (Regex.test Regex.amountPattern (trim (nth 1 cells EmptyString))) eqn:Ha;
      cbn [andb].
    - rewrite (test_truthy Regex.datePattern _ eq_refl Hd),
        (test_truthy Regex.amountPattern _ eq_refl Ha). reflexivity.
    - destruct (truthy (trim (nth 0 cells EmptyString))) eqn:Td,
               (truthy (trim (nth 1 cells EmptyString))) eqn:Ta; try reflexivity.
      destruct (Hrows cells (or_introl eq_refl) Td Ta). congruence.
    - destruct (truthy (trim (nth 0 cells EmptyString))) eqn:Td,
               (truthy (trim (nth 1 cells EmptyString))) eqn:Ta; try reflexivity.
      destruct (Hrows cells (or_introl eq_refl) Td Ta). congruence.
    - destruct (truthy (trim (nth 0 cells EmptyString))) eqn:Td,
               (truthy (trim (nth 1 cells EmptyString))) eqn:Ta; try reflexivity.
      destruct (Hrows cells (or_introl eq_refl) Td Ta). congruence. }
  unfold_monad. destruct (primaryRow dividends cells); [|reflexivity].
  apply IH. intros c Hc. apply Hrows. right. exact Hc.
Qed.

(** X24. The fallback finds what the primary strategy would: a document
    whose table is outside the table-wrap container yields the records
    of a document with the same rows inside it, when every row with a
    date and an amount has them in the shape of the two patterns. *)
Theorem X24_fallback_finds_the_same_records (wrapped plain : Html)
    (rows : list (list string)) :
  primaryRows wrapped = rows -> fallbackRows wrapped = rows ->
  primaryRows plain = [] -> fallbackRows plain = rows ->
  (forall cells, In cells rows ->
                 truthy (trim (nth 0 cells EmptyString)) = true ->
                 truthy (trim (nth 1 cells EmptyString)) = true ->
                 Regex.test Regex.datePattern (trim (nth 0 cells EmptyString)) = true /\
                 Regex.test Regex.amountPattern (trim (nth 1 cells EmptyString)) = true) ->
  extract plain = extract wrapped.
Proof.
  intros Hpw Hfw Hpp Hfp Hrows. unfold extract. rewrite Hpw, Hfw, Hpp, Hfp.
  cbn [eachRow]. unfold_monad. cbn [length Nat.eqb].
  rewrite (rows_agree rows [] Hrows).
  destruct (eachRow primaryRow rows []) as [[|d ds]|e] eqn:E;
    cbn [length Nat.eqb]; rewrite ?(rows_agree rows [] Hrows), ?E; reflexivity.
Qed.

End PipelineMore.

(** ** The persisted history store *)

Section StoreMore.
Context {collator : Collator} {dateHost : DateHost} {runtime : Runtime}.


(** ** The manifest and the batch *)

Lemma split_includes (c sep : ascii) (s piece : string) :
  includes c s = false -> In piece (split sep s) -> includes c piece = false.
Proof.
  revert piece. induction s as [|x s IH]; intros piece Hs; simpl.
  - intros [<- | []]. reflexivity.
  - simpl in Hs. apply orb_false_elim in Hs as [Hx Hs].
    destruct (Ascii.eqb x sep).
    + intros [<- | Hin]; [reflexivity|exact (IH _ Hs Hin)].
    + pose proof (split_nonempty sep s) as Hne.
      destruct (split sep s) as [|p ps]; [contradiction|].
      intros [<- | Hin]; [|apply (IH _ Hs); right; exact Hin].
      simpl. rewrite Hx. apply (IH _ Hs). left. reflexivity.
Qed.

Lemma readTickerLine_wellFormed (tickers : list string) (rawLine : string) :
  includes newline rawLine = false ->
  Forall wellFormedTicker tickers ->
  Forall wellFormedTicker (readTickerLine tickers rawLine).
Proof.
  intros Hline Hall. unfold readTickerLine.
  destruct (negb (truthy (trim rawLine))); [exact Hall|].
  destruct (truthy (trim (nth 0 (split comma (trim rawLine)) EmptyString))) eqn:Ht;
    [|exact Hall].
  destruct (0 <? _)%nat; [|exact Hall]. cbn [andb].
  apply List.Forall_app. split; [exact Hall|]. constructor; [|constructor].
  assert (In (nth 0 (split comma (trim rawLine)) EmptyString)
             (split comma (trim rawLine))) as Hin.
  { pose proof (split_nonempty comma (trim rawLine)).
    destruct (split comma (trim rawLine)); [contradiction|left; reflexivity]. }
  split; [apply truthy_nonempty, Ht|]. split; [apply trim_idem|].
  split; apply includes_trim.
  - exact (split_no_sep _ _ _ Hin).
  - exact (split_includes _ _ _ _ (includes_trim _ _ Hline) Hin).
Qed.

Lemma fold_readTickerLine_wellFormed (lines tickers : list string) :
  Forall (fun l => includes newline l = false) lines ->
  Forall wellFormedTicker tickers ->
  Forall wellFormedTicker (fold_left readTickerLine lines tickers).
Proof.
  intros Hlines. revert tickers.
  induction Hlines as [|l lines Hl _ IH]; intros tickers Hall; [exact Hall|].
  simpl. apply IH, readTickerLine_wellFormed; assumption.
Qed.

Lemma readTickersFromCsv_throws_bad_request (csvFilePath : string) (w : World) (e : JsError) :
  (readTickersFromCsv csvFilePath w).1 = Throw e ->
  exists message, e = BadRequestException message.
Proof.
  unfold readTickersFromCsv, readFile. unfold_monad.
  destruct (files w !! pathJoin [cwd; csvFilePath]) as [content|]; cbn [fst].
  - destruct (length _ <? 2)%nat; cbn [fst]; [intros [= <-]; eauto|discriminate].
  - intros [= <-]. eauto.
Qed.

(** X17. Reading the manifest changes nothing; whatever goes wrong it
    throws a bad request, and it does so when the file is missing; the
    tickers it returns are non-empty, hold no comma and no newline and
    no white space at either end. *)
Theorem X17_manifest_reader (csvFilePath : string) (w : World) :
  (readTickersFromCsv csvFilePath w).2 = w /\
  (forall e, (readTickersFromCsv csvFilePath w).1 = Throw e ->
             exists message, e = BadRequestException message) /\
  (files w !! pathJoin [cwd; csvFilePath] = None ->
   exists message,
     (readTickersFromCsv csvFilePath w).1 = Throw (BadRequestException message)) /\
  (forall tickers, (readTickersFromCsv csvFilePath w).1 = Normal tickers ->
                   Forall wellFormedTicker tickers).
Proof.
  split.
  { destruct (readTickersFromCsv csvFilePath w) as [r w'] eqn:E.
    exact (readTickersFromCsv_world _ _ _ _ E). }
  unfold readTickersFromCsv, readFile. unfold_monad.
  destruct (files w !! pathJoin [cwd; csvFilePath]) as [content|]; cbn [fst].
  - destruct (length _ <? 2)%nat; cbn [fst].
    + split; [intros e [= <-]; eauto|]. split; [discriminate|discriminate].
    + split; [discriminate|]. split; [discriminate|].
      intros tickers [= <-]. apply fold_readTickerLine_wellFormed; [|constructor].
      apply List.Forall_forall. intros l Hl.
      apply in_tail, List.filter_In in Hl as [Hl _]. exact (split_no_sep _ _ _ Hl).
  - split; [intros e [= <-]; eauto|]. split; [eauto|discriminate].
Qed.

(** X18. The batch throws only when the manifest cannot be read: then
    it throws the reader's bad request, before any ticker is processed,
    and changes nothing. *)
Theorem X18_batch_fails_only_for_the_manifest (clock : nat -> Z)
    (csvFilePath outputDir : string) (w : World) (e : JsError) :
  (processTickersFromCsv clock csvFilePath outputDir w).1 = Throw e ->
  (readTickersFromCsv csvFilePath w).1 = Throw e /\
  (exists message, e = BadRequestException message) /\
  (processTickersFromCsv clock csvFilePath outputDir w).2 = w.
Proof.
  assert (processTickersFromCsv clock csvFilePath outputDir w =
          match readTickersFromCsv csvFilePath w with
          | (Normal tickers, w') => processLoop clock 0 outputDir tickers [] w'
          | (Throw e', w') => (Throw e', w')
          end) as -> by reflexivity.
  destruct (readTickersFromCsv csvFilePath w) as [[tickers|e'] w'] eqn:E.
  - rewrite processLoop_run. discriminate.
  - cbn [fst snd]. intros [= ->].
    pose proof (readTickersFromCsv_world _ _ _ _ E) as ->.
    split; [reflexivity|]. split; [|reflexivity].
    destruct (readTickersFromCsv_throws_bad_request csvFilePath w e) as [m ->]; [|eauto].
    rewrite E. reflexivity.
Qed.

End StoreMore.

(** ** The service without the merge *)

Section LegacyMore.
Context {collator : Collator} {dateHost : DateHost} {runtime : Runtime}.

Lemma legacy_miss (now : Z) (t : string) (outputDir : option string) (w : World) :
  truthy t = true ->
  Cache.get (cache w) (toUpperCase t) now = None ->
  Legacy.getDividendHistory now t outputDir w =
  match httpGet now (harvestUrl t) with
  | Rejected status message =>
      (Throw (if decide (status = Some 404%Z)
              then BadRequestException (notFoundMessage t)
              else InternalServerErrorException
                     (orElse message
                        "Failed to fetch dividend history from stockanalysis.com")), w)
  | Response doc =>
      match extract doc with
      | Normal [] =>
          (Throw (InternalServerErrorException
                    "Could not find dividend history table on the page"), w)
      | Normal (d :: ds) =>
          (Normal (d :: ds),
           mkWorld
             (Cache.put (cache w) (toUpperCase t) (d :: ds) Cache.defaultTtlMs now)
             (filesAfterSave (toUpperCase t) (d :: ds) outputDir (files w)))
      | Throw e => (Throw e, w)
      end
  end.
Proof.
  intros Ht Hc. unfold Legacy.getDividendHistory. rewrite Ht. unfold_monad. simpl.
  rewrite Hc. unfold axiosGet. fold (harvestUrl t).
  destruct (httpGet now (harvestUrl t)) as [doc|status message].
  - destruct (extract_normal doc) as [[|d ds] ->]; [reflexivity|].
    cbn [length Nat.eqb]. rewrite saveToCsv_run. reflexivity.
  - destruct (decide (status = Some 404%Z)); reflexivity.
Qed.

(** X19. On a cache miss the service without the merge fails exactly
    as the merge-aware one does; when it returns, it returns the
    records in the order of the page and, the disk accepting, replaces
    the ticker's file with their encoding, where the merge-aware
    service returns the same records sorted if no file existed and the
    merge with the file's records if one did. *)
Theorem X19_service_without_merge (now : Z) (t : string)
    (outputDir : option string) (w : World) :
  truthy t = true ->
  Cache.get (cache w) (toUpperCase t) now = None ->
  let legacy := Legacy.getDividendHistory now t outputDir w in
  let merging := getDividendHistory now t outputDir w in
  let filePath := csvPath (toUpperCase t) outputDir in
  (forall e, legacy.1 = Throw e <-> merging.1 = Throw e) /\
  (forall page,
      legacy.1 = Normal page ->
      (exists doc, httpGet now (harvestUrl t) = Response doc /\
                   extract doc = Normal page) /\
      (diskRejects (baseDir outputDir) = false -> diskRejects filePath = false ->
       files legacy.2 = <[filePath := csvContent page]> (files w)) /\
      (files w !! filePath = None ->
       merging.1 = Normal (arraySort byDateDesc page)) /\
      (forall content,
          files w !! filePath = Some content ->
          merging.1 = Normal (mergeDividends (readCsvContent content) page))).
Proof.
  intros Ht Hc legacy merging filePath. subst legacy merging filePath.
  rewrite (legacy_miss now t outputDir w Ht Hc),
    (getDividendHistory_miss now t outputDir w Ht Hc).
  destruct (httpGet now (harvestUrl t)) as [doc|status message].
  - destruct (extract doc) as [[|d ds]|e'] eqn:Ex; cbn [fst snd].
    + split; [tauto|discriminate].
    + split; [split; discriminate|].
      intros page [= <-]. split; [eauto|]. cbn [files]. unfold filesAfterSave, finalDividends.
      split; [intros -> ->; reflexivity|].
      split; [intros ->; reflexivity|intros content ->; reflexivity].
    + split; [tauto|discriminate].
  - cbn [fst]. split; [tauto|discriminate].
Qed.

End LegacyMore.

(** ** The calendar lookup *)

Section CalendarMore.
Context {host : Finnhub.Host}.

(** X20. A calendar lookup that fails leaves the cache as it was; it
    fails with a bad request exactly when the ticker is empty or the
    API key is unset or empty, and with a server error otherwise. *)
Theorem X20_calendar_failures (today : Finnhub.DateFields) (now : Z) (t : string)
    (from to : option string) (cache : gmap string (Finnhub.Entry Finnhub.Json))
    (failure : Finnhub.Failure Finnhub.Json) :
  (Finnhub.getDividends today now t from to cache).1 = inl failure ->
  (Finnhub.getDividends today now t from to cache).2 = cache /\
  ((exists message, failure = Finnhub.BadRequest message) <->
   truthy t = false \/ truthy (Finnhub.orString Finnhub.apiKey EmptyString) = false).
Proof.
  unfold Finnhub.getDividends.
  destruct (truthy t); cbn [negb].
  - destruct (truthy (Finnhub.orString Finnhub.apiKey EmptyString)); cbn [negb].
    + destruct (Finnhub.lookup cache _ now); [discriminate|].
      destruct (Finnhub.calendarGet now _); [discriminate|].
      cbn [fst snd]. intros [= <-]. split; [reflexivity|].
      split; [intros [? [=]]|intros [|]; discriminate].
    + cbn [fst snd]. intros [= <-]. split; [reflexivity|]. split; eauto.
  - cbn [fst snd]. intros [= <-]. split; [reflexivity|]. split; eauto.
Qed.

(** X21. After a lookup that missed the cache and returned, a lookup
    for the same ticker and range made before ten minutes are over
    returns the same data whatever the API now answers, and leaves the
    cache as it is. *)
Theorem X21_calendar_served_from_cache (today today' : Finnhub.DateFields)
    (now later : Z) (t : string) (from to : option string)
    (cache : gmap string (Finnhub.Entry Finnhub.Json)) (data : Finnhub.Json) :
  Finnhub.lookup cache (Finnhub.requestKey today t from to) now = None ->
  (Finnhub.getDividends today now t from to cache).1 = inr data ->
  Finnhub.requestKey today' t from to = Finnhub.requestKey today t from to ->
  (later < now + 600000)%Z ->
  Finnhub.getDividends today' later t from to
    (Finnhub.getDividends today now t from to cache).2 =
  (inr data, (Finnhub.getDividends today now t from to cache).2).
Proof.
  intros Hmiss Hres Hkey Hlater. revert Hres. unfold Finnhub.getDividends.
  destruct (truthy t); cbn [negb]; [|discriminate].
  destruct (truthy (Finnhub.orString Finnhub.apiKey EmptyString)); cbn [negb];
    [|discriminate].
  fold (Finnhub.requestKey today t from to). fold (Finnhub.requestKey today' t from to).
  rewrite Hmiss, Hkey.
  destruct (Finnhub.calendarGet now _) as [fetched|body message]; [|discriminate].
  cbn [fst snd]. intros [= ->].
  unfold Finnhub.lookup at 1. rewrite lookup_insert_eq. cbn [Finnhub.expiresAt Finnhub.payload].
  unfold Finnhub.defaultTtlMs.
  destruct (Z.gtb_spec (now + 10 * 60 * 1000) later); [reflexivity|lia].
Qed.

Lemma app_sep_inj (sep : ascii) (a b x y : string) :
  includes sep a = false -> includes sep b = false ->
  a +:+ String sep x = b +:+ String sep y -> a = b /\ x = y.
Proof.
  revert b. induction a as [|c a IH]; intros [|c' b] Ha Hb; rewrite ?app_nil_l, ?app_cons.
  - intros [= ->]. split; reflexivity.
  - intros [= <- _]. simpl in Hb. rewrite Ascii.eqb_refl in Hb. discriminate.
  - intros [= -> _]. simpl in Ha. rewrite Ascii.eqb_refl in Ha. discriminate.
  - intros [= <- Hrest]. simpl in Ha, Hb.
    apply orb_false_elim in Ha as [_ Ha]. apply orb_false_elim in Hb as [_ Hb].
    destruct (IH b Ha Hb Hrest) as [-> ->]. split; reflexivity.
Qed.

(** X22. Requests whose tickers and start dates hold no vertical bar
    share a cache key only if they have the same ticker and the same
    range. *)
Theorem X22_calendar_keys_distinct (ticker1 from1 to1 ticker2 from2 to2 : string) :
  includes "|" ticker1 = false -> includes "|" from1 = false ->
  includes "|" ticker2 = false -> includes "|" from2 = false ->
  Finnhub.cacheKey ticker1 from1 to1 = Finnhub.cacheKey ticker2 from2 to2 ->
  ticker1 = ticker2 /\ from1 = from2 /\ to1 = to2.
Proof.
  intros T1 F1 T2 F2. unfold Finnhub.cacheKey.
  change ("|" +:+ ?x) with (String "|" x).
  intros Hk. apply app_sep_inj in Hk as [-> Hk]; [|assumption..].
  apply app_sep_inj in Hk as [-> ->]; [|assumption..]. repeat split.
Qed.

(** X23. [formatDate] prints a day of a month of a four-digit year as
    the zero-padded [YYYY-MM-DD]. *)
Theorem X23_formatDate_iso (d : Finnhub.DateFields) :
  (1000 <= Finnhub.fullYear d <= 9999)%Z ->
  (0 <= Finnhub.monthIndex d <= 11)%Z ->
  (1 <= Finnhub.dayOfMonth d <= 31)%Z ->
  Finnhub.formatDate d =
  isoDate (Finnhub.fullYear d) (Finnhub.monthIndex d + 1) (Finnhub.dayOfMonth d).
Proof.
  intros Hy Hm Hd. unfold Finnhub.formatDate, isoDate.
  rewrite numberToString_fourDigits, !padStart_twoDigits by lia. reflexivity.
Qed.

End CalendarMore.

End More.

(* ================================================================= *)
(** * The claims of the specification *)

Import Js Csv Merge Normalizer Service.
Import JsFacts CsvFacts MergeFacts NormalizerFacts CacheFacts ServiceFacts.

(** ** Merge engine *)

(** C1. With no existing history the merge is the harvest sorted
    descending by [exDividendDate]; otherwise it is the harvested
    records whose date is strictly greater, code unit by code unit, than
    the date of [existing[0]], followed by all of [existing], sorted
    descending by [exDividendDate].  Sorted descending: the same
    records, newest first under the collation, equal dates in their
    former order. *)
Theorem C1_merge_cutoff_then_sort {collator : Collator}
    (harvested : list DividendHistory) :
  sortedDescendingOf harvested (mergeDividends [] harvested) /\
  forall first rest,
    let cutoff := exDividendDate first in
    sortedDescendingOf
      (List.filter (fun d => gtb (exDividendDate d) cutoff) harvested ++ first :: rest)
      (mergeDividends (first :: rest) harvested).
Proof.
  split; [apply arraySort_sortedDescendingOf|].
  intros first rest cutoff. apply arraySort_sortedDescendingOf.
Qed.

(** C3, amended.  When the existing history is strictly descending in
    code-unit order and the harvested records the cutoff admits (all of
    them when nothing exists yet) have pairwise distinct dates, no two
    records of the merge share an [exDividendDate]. *)
Theorem C3_merge_dates_distinct {collator : Collator}
    (existing harvested : list DividendHistory) :
  strictlyDescending existing ->
  List.NoDup (map exDividendDate (newerEntries existing harvested)) ->
  List.NoDup (map exDividendDate (mergeDividends existing harvested)).
Proof.
  intros Hs Hn.
  apply (Permutation_NoDup
           (Permutation_map exDividendDate (mergeDividends_perm existing harvested))).
  rewrite List.map_app. apply List.NoDup_app.
  - exact Hn.
  - apply strictlyDescending_NoDup, Hs.
  - destruct existing as [|first rest]; [intros ? _ []|].
    apply newer_not_existing, Hs.
Qed.

(** C8. Merging an empty harvest into an existing history, which by
    the invariant of a history is in descending order, gives the
    history back, same records, same order. *)
Theorem C8_merge_nothing_harvested {collator : Collator}
    (existing : list DividendHistory) :
  descending existing -> mergeDividends existing [] = existing.
Proof.
  intros Hd. destruct existing as [|first rest]; [reflexivity|].
  unfold mergeDividends. cbn [List.filter app].
  apply (arraySort_sorted_id byDateDesc). exact Hd.
Qed.

(** ** Delimited-text codec *)

(** C2, amended.  Decoding the encoding of a history gives the same
    records in the same order when no field holds a double quote or a
    newline, no field starts or ends with white space and every pay
    date is non-empty; fields may hold commas. *)
Theorem C2_codec_round_trip (history : list DividendHistory) :
  Forall preserved history -> readCsvContent (csvContent history) = history.
Proof. apply readCsvContent_preserved. Qed.

(** C10. A record with an empty pay date whose other fields hold no
    comma, quote or newline is dropped by encoding then decoding: its
    line ends with a comma, the tokenizer gives three tokens, the line
    is skipped, and the decoded history is the one of the history
    without the record; next to records the codec preserves, the
    decoded history is those records and the record is not among
    them. *)
Theorem C10_empty_payDate_dropped (r : DividendHistory)
    (before after : list DividendHistory) :
  payDate r = EmptyString ->
  plainField (exDividendDate r) -> plainField (cashAmount r) ->
  plainField (recordDate r) ->
  csvRow r =
    exDividendDate r +:+ String comma
      (cashAmount r +:+ String comma (recordDate r +:+ String comma EmptyString)) /\
  parseCsvLine (trim (csvRow r)) =
    [trim (exDividendDate r); trim (cashAmount r); trim (recordDate r)] /\
  (forall dividends, readLine dividends (csvRow r) = dividends) /\
  readCsvContent (csvContent [r]) = [] /\
  readCsvContent (csvContent (before ++ r :: after)) =
  readCsvContent (csvContent (before ++ after)) /\
  (Forall preserved (before ++ after) ->
   readCsvContent (csvContent (before ++ r :: after)) = before ++ after /\
   ~ In r (readCsvContent (csvContent (before ++ r :: after)))).
Proof.
  intros Hp H1 H2 H3.
  assert (forall dividends, readLine dividends (csvRow r) = dividends) as Hskip.
  { intros dividends. apply readLine_empty_payDate; assumption. }
  assert (includes newline (csvRow r) = false) as Hline.
  { destruct (csvRow_empty_payDate r Hp H1 H2 H3) as [-> _].
    destruct H1 as (_ & _ & N1), H2 as (_ & _ & N2), H3 as (_ & _ & N3).
    repeat (rewrite includes_app; cbn [includes]).
    rewrite N1, N2, N3. reflexivity. }
  assert (forall h1 h2,
             readCsvContent (csvContent (h1 ++ r :: h2)) =
             readCsvContent (csvContent (h1 ++ h2))) as Hdrop.
  { intros h1 h2. rewrite !readCsvContent_csvContent.
    rewrite !List.map_app. cbn [map]. rewrite !List.concat_app. cbn [List.concat].
    rewrite (split_none _ _ Hline). cbn [app].
    rewrite !List.filter_app, !List.flat_map_app. f_equal.
    cbn [List.filter]. destruct (nonblank (csvRow r)); [|reflexivity].
    cbn [flat_map]. rewrite Hskip. reflexivity. }
  split; [apply csvRow_empty_payDate; assumption|].
  split; [apply parseCsvLine_empty_payDate; assumption|].
  split; [exact Hskip|].
  split; [exact (Hdrop [] [])|].
  split; [exact (Hdrop before after)|].
  intros Hothers. pose proof (readCsvContent_preserved _ Hothers) as Hrt.
  rewrite Hdrop, Hrt. split; [reflexivity|].
  intros Hin. rewrite List.Forall_forall in Hothers.
  destruct (Hothers r Hin) as (_ & _ & _ & _ & Hpay). contradiction.
Qed.

(** ** Record normalizer *)

(** C4. [formatDateToIso] never throws, whatever the host's [Date]
    does; it returns its input when the input is empty or white space
    only, or when the host does not parse it; and when the host parses
    it to a day of a month of a year it returns the year, the
    zero-padded month and the zero-padded day joined by hyphens, which
    for a four-digit year is the zero-padded [YYYY-MM-DD] of that year,
    month and day. *)
Theorem C4_formatDateToIso {dateHost : DateHost} (dateStr : string) :
  (exists result, formatDateToIso dateStr = Normal result) /\
  (trim dateStr = EmptyString -> formatDateToIso dateStr = Normal dateStr) /\
  (newDate (trim dateStr) = Normal InvalidDate \/
   (exists e, newDate (trim dateStr) = Throw e) ->
   formatDateToIso dateStr = Normal dateStr) /\
  (forall year month day,
      trim dateStr <> EmptyString ->
      newDate (trim dateStr) = Normal (ValidDate year month day) ->
      (0 <= month <= 11)%Z -> (1 <= day <= 31)%Z ->
      formatDateToIso dateStr =
        Normal (numberToString year +:+ "-" +:+ twoDigits (month + 1)
                  +:+ "-" +:+ twoDigits day) /\
      ((1000 <= year <= 9999)%Z ->
       formatDateToIso dateStr = Normal (isoDate year (month + 1) day))).
Proof.
  split; [apply formatDateToIso_normal|].
  split; [intros Hb; apply formatDateToIso_blank; rewrite Hb; reflexivity|].
  split; [apply formatDateToIso_unparsed|].
  intros year month day Hne Hp Hm Hd.
  rewrite (formatDateToIso_parsed dateStr year month day);
    [|destruct (trim dateStr); [contradiction|reflexivity]|exact Hp].
  rewrite !padStart_twoDigits by lia.
  split; [reflexivity|].
  intros Hy. rewrite numberToString_fourDigits by lia. reflexivity.
Qed.

(** ** Time-bounded cache *)

(** C5. A lookup returns the stored history exactly when the time is
    strictly before the entry's expiry and is a miss otherwise; right
    after a store with a time to live of zero the lookup misses, right
    after a store with the one-hour default it returns the stored
    history. *)
Theorem C5_cache_expiry (cache : gmap string CacheEntry) (key : string)
    (history : list DividendHistory) (now : Z) :
  (forall found,
      Cache.get cache key now = Some found <->
      exists entry, cache !! key = Some entry /\ (now < expiresAtMs entry)%Z /\
                    data entry = found) /\
  (Cache.get cache key now = None <->
   forall entry, cache !! key = Some entry -> (expiresAtMs entry <= now)%Z) /\
  Cache.get (Cache.put cache key history 0 now) key now = None /\
  Cache.get (Cache.put cache key history Cache.defaultTtlMs now) key now = Some history /\
  Cache.defaultTtlMs = 3600000%Z.
Proof.
  split; [intros found; apply get_Some|].
  split.
  - unfold Cache.get. destruct (cache !! key) as [entry|].
    + destruct (Z.gtb_spec (expiresAtMs entry) now); split; try discriminate.
      * intros Hall. specialize (Hall entry eq_refl). lia.
      * intros _ e [= <-]. lia.
      * reflexivity.
    + split; [discriminate|reflexivity].
  - rewrite !get_put. unfold Cache.defaultTtlMs.
    destruct (Z.gtb_spec (now + 0) now); [lia|].
    destruct (Z.gtb_spec (now + 60 * 60 * 1000) now); [|lia].
    repeat split.
Qed.

(** ** Service *)

(** C6. When the manifest reads as [tickers], the batch call returns
    normally, with one outcome per ticker in manifest order.  The
    outcome of the ticker at position [i] reports the pipeline call made
    on it in the world the earlier tickers left, whether or not those
    failed: success without an error when the call returned, failure
    with a non-empty error when it threw. *)
Theorem C6_batch_outcomes
    {collator : Collator} {dateHost : DateHost} {runtime : Runtime}
    (clock : nat -> Z) (csvFilePath outputDir : string) (w w0 : World)
    (tickers : list string) :
  readTickersFromCsv csvFilePath w = (Normal tickers, w0) ->
  exists outcomes w',
    processTickersFromCsv clock csvFilePath outputDir w = (Normal outcomes, w') /\
    map Service.ticker outcomes = tickers /\
    forall i t,
      tickers !! i = Some t ->
      match (getDividendHistory (clock i) t (Some outputDir)
               (worldAfter clock 0 outputDir (take i tickers) w0)).1 with
      | Normal _ => outcomes !! i = Some (mkOutcome t true None)
      | Throw _ =>
          exists message,
            outcomes !! i = Some (mkOutcome t false (Some message)) /\
            message <> EmptyString
      end.
Proof.
  intros Hread.
  exists (batchOutcomes clock 0 outputDir tickers w0),
         (worldAfter clock 0 outputDir tickers w0).
  split; [|split].
  - unfold processTickersFromCsv. unfold mbind at 1. unfold M_bind.
    rewrite Hread, processLoop_run. reflexivity.
  - apply batchOutcomes_tickers.
  - intros i t Hi. rewrite (batchOutcomes_lookup clock 0 outputDir tickers w0 i t Hi).
    cbn [Nat.add].
    destruct (getDividendHistory (clock i) t (Some outputDir) _).1 as [v|e];
      [reflexivity|].
    eexists. split; [reflexivity|]. apply orElse_truthy. discriminate.
Qed.

(** C7. On a cache miss for a non-empty ticker: the call throws the
    not-found bad request exactly when the upstream rejects with status
    404; for a fetched document it throws exactly when both extraction
    strategies find no record, and then the extraction error; any other
    rejection (another status, no response, a timeout) gives the
    upstream error with the rejection's message. *)
Theorem C7_harvest_errors
    {collator : Collator} {dateHost : DateHost} {runtime : Runtime}
    (now : Z) (t : string) (outputDir : option string) (w : World) :
  truthy t = true ->
  Cache.get (cache w) (toUpperCase t) now = None ->
  let result := (getDividendHistory now t outputDir w).1 in
  let fetched := httpGet now (harvestUrl t) in
  ((exists message, result = Throw (BadRequestException message)) <->
   (exists message, fetched = Rejected (Some 404%Z) message)) /\
  (forall message,
      fetched = Rejected (Some 404%Z) message ->
      result = Throw (BadRequestException (notFoundMessage t))) /\
  (forall doc,
      fetched = Response doc ->
      ((exists e, result = Throw e) <->
       primaryRecords doc = Normal [] /\ fallbackRecords doc = Normal []) /\
      (forall e, result = Throw e ->
                 e = InternalServerErrorException
                       "Could not find dividend history table on the page")) /\
  (forall status message,
      fetched = Rejected status message -> status <> Some 404%Z ->
      result = Throw (InternalServerErrorException
                        (orElse message
                           "Failed to fetch dividend history from stockanalysis.com"))).
Proof.
  intros Ht Hc result fetched. subst result fetched.
  rewrite (getDividendHistory_miss now t outputDir w Ht Hc).
  destruct (httpGet now (harvestUrl t)) as [doc|status message].
  - assert (match extract doc with
            | Normal [] => primaryRecords doc = Normal [] /\ fallbackRecords doc = Normal []
            | Normal (_ :: _) =>
                ~ (primaryRecords doc = Normal [] /\ fallbackRecords doc = Normal [])
            | Throw _ => False
            end) as Hx.
    { destruct (extract_cases doc) as [[Hp Hf] | (d & ds & Hp & ->)].
      - rewrite Hf.
        destruct (eachRow_normal fallbackRow (fallbackRows doc) [] fallbackRow_normal)
          as [[|d ds] Hfr]; unfold fallbackRecords; rewrite Hfr.
        + split; [exact Hp|reflexivity].
        + intros [_ ?]. discriminate.
      - rewrite Hp. intros [? _]. discriminate. }
    destruct (extract doc) as [[|d ds]|e]; [| |contradiction]; cbn [fst].
    + split; [split; [intros [? [=]]|intros [? [=]]]|].
      split; [intros ? [=]|].
      split; [|intros ? ? [=]].
      intros doc' [= <-]. split; [split; [intros _; exact Hx|eauto]|].
      intros e [= <-]. reflexivity.
    + split; [split; [intros [? [=]]|intros [? [=]]]|].
      split; [intros ? [=]|].
      split; [|intros ? ? [=]].
      intros doc' [= <-]. split; [split; [intros [? [=]]|intros Hboth; contradiction]|].
      intros e [=].
  - cbn [fst]. destruct (decide (status = Some 404%Z)) as [->|Hne].
    + split; [split; eauto|].
      split; [reflexivity|].
      split; [intros ? [=]|].
      intros status' message' [= <- <-] Hne. contradiction.
    + split; [split; [intros [? [=]]|intros [? [= -> _]]; contradiction]|].
      split; [intros ? [= -> _]; contradiction|].
      split; [intros ? [=]|].
      intros status' message' [= <- <-] _. reflexivity.
Qed.

(** C9. A request for a non-empty ticker that finds a fresh cache entry
    and is given an output directory returns the cached history, leaves
    the cache and every other file as they were, and writes the
    encoding of the cached history, whatever the file held, to the
    ticker's file in that directory; a write the disk rejects leaves the
    files as they were. *)
Theorem C9_cache_hit_rewrites_file
    {collator : Collator} {dateHost : DateHost} {runtime : Runtime}
    (now : Z) (t outputDir : string) (w : World) (entry : CacheEntry) :
  truthy t = true ->
  truthy outputDir = true ->
  cache w !! toUpperCase t = Some entry ->
  (now < expiresAtMs entry)%Z ->
  let run := getDividendHistory now t (Some outputDir) w in
  let filePath := csvPath (toUpperCase t) (Some outputDir) in
  run.1 = Normal (data entry) /\
  cache run.2 = cache w /\
  (forall path, path <> filePath -> files run.2 !! path = files w !! path) /\
  (diskRejects (baseDir (Some outputDir)) = false -> diskRejects filePath = false ->
   files run.2 = <[filePath := csvContent (data entry)]> (files w)) /\
  (diskRejects (baseDir (Some outputDir)) = true \/ diskRejects filePath = true ->
   files run.2 = files w).
Proof.
  intros Ht Hd Hc Hfresh run filePath. subst run filePath.
  assert (Cache.get (cache w) (toUpperCase t) now = Some (data entry)) as Hget.
  { apply get_Some. eauto. }
  rewrite (getDividendHistory_hit now t (Some outputDir) w (data entry) Ht Hget).
  cbn [given]. rewrite Hd. cbn [fst snd cache files]. unfold filesAfterSave.
  split; [reflexivity|]. split; [reflexivity|].
  split; [|split].
  - intros path Hne.
    destruct (_ || _); [reflexivity|]. apply lookup_insert_ne. congruence.
  - intros -> ->. reflexivity.
  - intros [-> | ->]; [reflexivity|]. rewrite orb_true_r. reflexivity.
Qed.

(** ** The claims on the reference host *)

#[local] Existing Instances
  Samples.codeUnitCollator Samples.monthDayYearHost Samples.sampleRuntime.

(** C3 as stated fails: two harvested records of one date, both newer
    than the cutoff, are both kept. *)
Lemma C3_merge_keeps_equal_dates :
  strictlyDescending [Samples.october31; Samples.october24] /\
  descending [Samples.october31; Samples.october24] /\
  ~ List.NoDup
      (map exDividendDate
         (mergeDividends [Samples.october31; Samples.october24]
            [Samples.november7; Samples.november7special])).
Proof.
  split; [repeat constructor|].
  split; [repeat constructor; vm_compute; discriminate|].
  vm_compute. intros Hn. inversion Hn as [|date dates Hnotin _]. subst.
  apply Hnotin. left. reflexivity.
Qed.

Lemma C3_merge_dates_distinct_witness :
  strictlyDescending [Samples.october31; Samples.october24] /\
  List.NoDup
    (map exDividendDate
       (newerEntries [Samples.october31; Samples.october24]
          [Samples.november7; Samples.october31; Samples.october24])) /\
  List.NoDup
    (map exDividendDate
       (mergeDividends [Samples.october31; Samples.october24]
          [Samples.november7; Samples.october31; Samples.october24])).
Proof.
  assert (strictlyDescending [Samples.october31; Samples.october24]) as Hs
    by (repeat constructor).
  assert (List.NoDup
            (map exDividendDate
               (newerEntries [Samples.october31; Samples.october24]
                  [Samples.november7; Samples.october31; Samples.october24]))) as Hn
    by (vm_compute; repeat constructor; intros []).
  split; [exact Hs|]. split; [exact Hn|].
  exact (C3_merge_dates_distinct _ _ Hs Hn).
Defined.

Lemma C8_merge_nothing_harvested_witness :
  descending [Samples.october31; Samples.october24] /\
  mergeDividends [Samples.october31; Samples.october24] [] =
  [Samples.october31; Samples.october24].
Proof.
  assert (descending [Samples.october31; Samples.october24]) as Hd
    by (repeat constructor; vm_compute; discriminate).
  split; [exact Hd|]. exact (C8_merge_nothing_harvested _ Hd).
Defined.

(** C2 as stated fails: a double quote is lost, a newline breaks the
    record into lines that are skipped, white space at the end of a
    field is trimmed, and a record without pay date is skipped. *)
Lemma C2_codec_loses_fields :
  readCsvContent (csvContent [Samples.quotedAmount]) <> [Samples.quotedAmount] /\
  readCsvContent (csvContent [Samples.multilineAmount]) <> [Samples.multilineAmount] /\
  readCsvContent (csvContent [Samples.paddedAmount]) <> [Samples.paddedAmount] /\
  readCsvContent (csvContent [Samples.noPayDate]) <> [Samples.noPayDate].
Proof. repeat split; vm_compute; discriminate. Qed.

Lemma C2_codec_round_trip_witness :
  Forall preserved [Samples.october31; Samples.commaAmount] /\
  readCsvContent (csvContent [Samples.october31; Samples.commaAmount]) =
  [Samples.october31; Samples.commaAmount].
Proof.
  assert (Forall preserved [Samples.october31; Samples.commaAmount]) as Hp
    by (repeat constructor; discriminate).
  split; [exact Hp|]. exact (C2_codec_round_trip _ Hp).
Defined.

Lemma C10_empty_payDate_dropped_witness :
  readCsvContent (csvContent [Samples.october31; Samples.noPayDate; Samples.october24]) =
    [Samples.october31; Samples.october24] /\
  ~ In Samples.noPayDate
      (readCsvContent
         (csvContent [Samples.october31; Samples.noPayDate; Samples.october24])).
Proof.
  assert (plainField "2025-10-31") as Hdate by (repeat split).
  assert (plainField "$0.25") as Hcash by (repeat split).
  destruct (C10_empty_payDate_dropped Samples.noPayDate [Samples.october31]
              [Samples.october24] eq_refl Hdate Hcash Hdate)
    as (_ & _ & _ & _ & _ & Hothers).
  apply Hothers. repeat constructor; discriminate.
Defined.

Lemma C4_formatDateToIso_witness :
  formatDateToIso "Oct 31, 2025" = Normal "2025-10-31".
Proof.
  apply (proj2 (proj2 (proj2 (C4_formatDateToIso "Oct 31, 2025"))) 2025%Z 9%Z 31%Z);
    [vm_compute; discriminate|reflexivity|lia|lia|lia].
Defined.

(** The partial failure of a batch: three tickers, the second one
    unknown upstream. *)
Lemma C6_batch_outcomes_witness :
  exists outcomes w',
    processTickersFromCsv (fun k => 1000 + Z.of_nat k)%Z "manifest.csv" "out"
      Samples.manifestWorld = (Normal outcomes, w') /\
    map Service.ticker outcomes = ["AAA"; "BBB"; "CCC"] /\
    forall i t,
      ["AAA"; "BBB"; "CCC"] !! i = Some t ->
      match (getDividendHistory (1000 + Z.of_nat i)%Z t (Some "out")
               (worldAfter (fun k => 1000 + Z.of_nat k)%Z 0 "out"
                  (take i ["AAA"; "BBB"; "CCC"]) Samples.manifestWorld)).1 with
      | Normal _ => outcomes !! i = Some (mkOutcome t true None)
      | Throw _ =>
          exists message,
            outcomes !! i = Some (mkOutcome t false (Some message)) /\
            message <> EmptyString
      end.
Proof.
  apply (C6_batch_outcomes (fun k => 1000 + Z.of_nat k)%Z "manifest.csv" "out"
           Samples.manifestWorld Samples.manifestWorld ["AAA"; "BBB"; "CCC"]).
  vm_compute. reflexivity.
Defined.

Lemma C7_harvest_errors_witness :
  (getDividendHistory 1000 "BBB" (Some "out") Samples.manifestWorld).1 =
  Throw (BadRequestException (notFoundMessage "BBB")).
Proof.
  apply (proj1 (proj2 (C7_harvest_errors 1000 "BBB" (Some "out") Samples.manifestWorld
                         ltac:(reflexivity) ltac:(vm_compute; reflexivity)))
           "Request failed with status code 404").
  reflexivity.
Defined.

Lemma C9_cache_hit_rewrites_file_witness :
  (getDividendHistory 4000 "aaa" (Some "out") Samples.cachedWorld).1 =
    Normal [Samples.october31; Samples.october24] /\
  files (getDividendHistory 4000 "aaa" (Some "out") Samples.cachedWorld).2 =
    <["/app/out/aaa_dividends.csv" :=
        csvContent [Samples.october31; Samples.october24]]>
      (files Samples.cachedWorld).
Proof.
  destruct (C9_cache_hit_rewrites_file 4000 "aaa" "out" Samples.cachedWorld
              (mkCacheEntry 5000 [Samples.october31; Samples.october24])
              ltac:(reflexivity) ltac:(reflexivity) ltac:(vm_compute; reflexivity)
              ltac:(simpl; lia))
    as (Hresult & _ & _ & Hwrite & _).
  split; [exact Hresult|]. apply Hwrite; reflexivity.
Defined.

(** ** The further properties on the reference host *)

#[local] Existing Instance Samples.calendarHost.

Lemma X1_decoded_fields_clean_witness :
  In (mkDividend "2025-10-31" "$0.25 special" "2025-10-31" "2025-11-03")
     (readCsvContent (csvContent [Samples.quotedAmount])) /\
  cleanField "$0.25 special".
Proof.
  assert (In (mkDividend "2025-10-31" "$0.25 special" "2025-10-31" "2025-11-03")
             (readCsvContent (csvContent [Samples.quotedAmount]))) as Hin
    by (vm_compute; left; reflexivity).
  split; [exact Hin|].
  exact (proj1 (proj2 (More.X1_decoded_fields_clean _ _ Hin))).
Defined.

Lemma X3_header_not_validated_witness :
  readCsvContent
    ("Ex-Dividend Date,Cash Amount,Record Date,Pay Date"
       +:+ String Js.newline (csvRow Samples.october31)) =
  readCsvContent ("a,b,c,d" +:+ String Js.newline (csvRow Samples.october31)).
Proof. apply More.X3_header_not_validated; reflexivity. Defined.

Lemma X4_blank_lines_ignored_witness :
  readCsvContent (csvContent [Samples.october31] +:+ String Js.newline "  ") =
  readCsvContent (csvContent [Samples.october31]).
Proof.
  apply (proj2 (More.X4_blank_lines_ignored (csvContent [Samples.october31]) "  "
                  EmptyString ltac:(reflexivity) ltac:(reflexivity))).
Defined.

Lemma X5_carriage_returns_ignored_witness :
  readCsvContent
    (join (String Js.newline EmptyString)
       (map (fun l => l +:+ String "013"%char EmptyString)
          ["Ex-Dividend Date,Cash Amount,Record Date,Pay Date";
           csvRow Samples.october31])) =
  readCsvContent
    (join (String Js.newline EmptyString)
       ["Ex-Dividend Date,Cash Amount,Record Date,Pay Date"; csvRow Samples.october31]).
Proof. apply More.X5_carriage_returns_ignored. repeat constructor. Defined.

Lemma X6_tokens_of_unquoted_line_witness :
  parseCsvLine "AAA, First fund ,,x," = ["AAA"; "First fund"; ""; "x"].
Proof. apply (More.X6_tokens_of_unquoted_line "AAA, First fund ,,x,"). reflexivity. Defined.

Lemma X8_merge_same_harvest_again_witness :
  mergeDividends
    (mergeDividends [Samples.october31; Samples.october24]
       [Samples.november7; Samples.october31])
    [Samples.november7; Samples.october31] =
  mergeDividends [Samples.october31; Samples.october24]
    [Samples.november7; Samples.october31].
Proof.
  apply More.X8_merge_same_harvest_again.
  intros a b _ _. cbn [localeCompare Samples.codeUnitCollator].
  rewrite Samples.codeUnitCompare_le. unfold String.le.
  destruct (String.leb a b); simpl; intuition discriminate.
Defined.

Lemma X10_cache_expiry_monotone_witness :
  Cache.get (cache Samples.cachedWorld) "AAA" 1000 =
  Some [Samples.october31; Samples.october24].
Proof.
  apply (proj1 (More.X10_cache_expiry_monotone (cache Samples.cachedWorld) "AAA"
                  1000 4000 ltac:(lia))).
  vm_compute. reflexivity.
Defined.

Lemma X11_failed_request_changes_nothing_witness :
  (getDividendHistory 1000 "BBB" (Some "out") Samples.manifestWorld).2 =
  Samples.manifestWorld.
Proof.
  apply (More.X11_failed_request_changes_nothing 1000 "BBB" (Some "out")
           Samples.manifestWorld (BadRequestException (notFoundMessage "BBB"))).
  vm_compute. reflexivity.
Defined.

Lemma X12_harvest_postcondition_witness :
  descending [Samples.october31; Samples.october24] /\
  files (getDividendHistory 1000 "AAA" (Some "out") Samples.manifestWorld).2 =
  <["/app/out/aaa_dividends.csv" := csvContent [Samples.october31; Samples.october24]]>
    (files Samples.manifestWorld).
Proof.
  destruct (More.X12_harvest_postcondition 1000 "AAA" (Some "out") Samples.manifestWorld
              [Samples.october31; Samples.october24]
              ltac:(reflexivity) ltac:(vm_compute; reflexivity)
              ltac:(vm_compute; reflexivity))
    as (_ & Hsorted & _ & Hwrite & _).
  split; [exact Hsorted|]. apply Hwrite; reflexivity.
Defined.

Lemma X13_repeated_request_served_from_cache_witness :
  (getDividendHistory 2000 "AAA" (Some "out")
     (getDividendHistory 1000 "AAA" (Some "out") Samples.manifestWorld).2).1 =
  Normal [Samples.october31; Samples.october24].
Proof.
  rewrite (More.X13_repeated_request_served_from_cache 1000 2000 "AAA" (Some "out")
             Samples.manifestWorld [Samples.october31; Samples.october24]
             ltac:(reflexivity) ltac:(vm_compute; reflexivity)
             ltac:(vm_compute; reflexivity) ltac:(lia)).
  reflexivity.
Defined.

Lemma X14_harvest_keeps_records_on_disk_witness :
  In Samples.october24 [Samples.october31; Samples.october24].
Proof.
  apply (More.X14_harvest_keeps_records_on_disk 5000 "aaa" (Some "out")
           Samples.cachedWorld [Samples.october31; Samples.october24]
           (csvContent [Samples.october24]) Samples.october24);
    [reflexivity|vm_compute; reflexivity|vm_compute; reflexivity
    |vm_compute; reflexivity|vm_compute; left; reflexivity].
Defined.

Lemma X15_extracted_records_have_date_and_amount_witness :
  exDividendDate Samples.october31 <> EmptyString /\
  cashAmount Samples.october31 <> EmptyString /\
  trim (cashAmount Samples.october31) = cashAmount Samples.october31.
Proof.
  apply (More.X15_extracted_records_have_date_and_amount
           (runtime := Samples.sampleRuntime) Samples.octoberRows
           [Samples.october31; Samples.october24] Samples.october31);
    [vm_compute; reflexivity|left; reflexivity].
Defined.


Lemma X18_batch_fails_only_for_the_manifest_witness :
  (processTickersFromCsv (fun k => 1000 + Z.of_nat k)%Z "manifest.csv" "out"
     Samples.cachedWorld).2 = Samples.cachedWorld.
Proof.
  apply (More.X18_batch_fails_only_for_the_manifest (fun k => 1000 + Z.of_nat k)%Z
           "manifest.csv" "out" Samples.cachedWorld
           (BadRequestException
              "Failed to read CSV file: ENOENT: no such file or directory")).
  vm_compute. reflexivity.
Defined.

Lemma X19_service_without_merge_witness :
  (getDividendHistory 1000 "AAA" (Some "out") Samples.manifestWorld).1 =
  Normal (Merge.arraySort byDateDesc
            [Samples.october31; Samples.october24]).
Proof.
  apply (proj2 (More.X19_service_without_merge 1000 "AAA" (Some "out")
                  Samples.manifestWorld ltac:(reflexivity)
                  ltac:(vm_compute; reflexivity))
           [Samples.october31; Samples.october24]);
    vm_compute; reflexivity.
Defined.

Lemma X20_calendar_failures_witness :
  (Finnhub.getDividends (host := Samples.calendarHost) Samples.june15 1000 "MSFT" None None
     Samples.noCalendarCache).2 = Samples.noCalendarCache.
Proof.
  apply (More.X20_calendar_failures (host := Samples.calendarHost) Samples.june15 1000 "MSFT" None None
           Samples.noCalendarCache
           (Finnhub.InternalServerError (inr "Network Error"))).
  vm_compute. reflexivity.
Defined.

Lemma X21_calendar_served_from_cache_witness :
  (Finnhub.getDividends (host := Samples.calendarHost) Samples.june15 500000 "AAPL" None None
     (Finnhub.getDividends (host := Samples.calendarHost) Samples.june15 1000 "AAPL" None None
        Samples.noCalendarCache).2).1 = inr "[{}]".
Proof.
  rewrite (More.X21_calendar_served_from_cache (host := Samples.calendarHost)
             Samples.june15 Samples.june15
             1000 500000 "AAPL" None None Samples.noCalendarCache "[{}]"
             ltac:(vm_compute; reflexivity) ltac:(vm_compute; reflexivity)
             ltac:(reflexivity) ltac:(lia)).
  reflexivity.
Defined.

Lemma X22_calendar_keys_distinct_witness :
  Finnhub.cacheKey "AAPL" "2020-06-15" "2025-06-15" <>
  Finnhub.cacheKey "AAPL" "2020-06-16" "2025-06-15".
Proof.
  intros Hk.
  destruct (More.X22_calendar_keys_distinct "AAPL" "2020-06-15" "2025-06-15"
              "AAPL" "2020-06-16" "2025-06-15"
              ltac:(reflexivity) ltac:(reflexivity) ltac:(reflexivity)
              ltac:(reflexivity) Hk) as (_ & Hfrom & _).
  discriminate.
Defined.

Lemma X23_formatDate_iso_witness :
  Finnhub.formatDate Samples.june15 = "2025-06-15".
Proof.
  apply (More.X23_formatDate_iso Samples.june15); simpl; lia.
Defined.

Lemma X24_fallback_finds_the_same_records_witness :
  extract (runtime := Samples.tableRuntime) (false, Samples.octoberRows) =
  extract (runtime := Samples.tableRuntime) (true, Samples.octoberRows).
Proof.
  apply (More.X24_fallback_finds_the_same_records (runtime := Samples.tableRuntime)
           (true, Samples.octoberRows) (false, Samples.octoberRows)
           Samples.octoberRows);
    [reflexivity..|].
  intros cells [<- | [<- | []]] _ _; split; vm_compute; reflexivity.
Defined.
